(** * SCD30 driver: CRC8 engine, protocol driver and measurement decoder

    A shallow embedding of the Go package [scd30] (its CRC8 functions,
    register table, [I2C] interface, [Device] operations and
    [Measurement] type) and the properties of its byte-level protocol. *)

From Equations Require Import Equations.
From Stdlib Require Import ZArith List Lia Bool String Ascii QArith.
From Stdlib Require Import DecimalString HexadecimalString.
Import ListNotations.
Local Open Scope Z_scope.

(** ** Machine integers

    Go's fixed-width unsigned integers are carried as [Z]; a conversion or
    an arithmetic result of width [w] is reduced modulo [2^w]. *)

Definition uint8 (z : Z) : Z := z mod 2 ^ 8.
Definition uint16 (z : Z) : Z := z mod 2 ^ 16.
Definition uint32 (z : Z) : Z := z mod 2 ^ 32.

(** ** Run-time panics

    Indexing a slice out of range panics; a function that indexes returns
    an [outcome]. *)

Inductive outcome (A : Type) : Type :=
| Returns (a : A)
| Panics.
Arguments Returns {A} a.
Arguments Panics {A}.

Definition obind {A B} (o : outcome A) (k : A -> outcome B) : outcome B :=
  match o with
  | Returns a => k a
  | Panics => Panics
  end.

Notation "x <-! o ;; k" := (obind o (fun x => k))
  (at level 61, o at next level, right associativity).

(** [data[i]] on a slice. *)
Definition index {A} (data : list A) (i : Z) : outcome A :=
  if i <? 0 then Panics
  else match nth_error data (Z.to_nat i) with
       | Some b => Returns b
       | None => Panics
       end.

(** [len(data)] as a Go [int]. *)
Definition len {A} (data : list A) : Z := Z.of_nat (List.length data).

(** ** Errors

    One constructor per [fmt.Errorf] call site of the package, carrying
    the arguments handed to the format string. The transport's own errors
    are opaque messages. *)

Inductive error : Type :=
| ErrCRC (expectedCRC crc : Z)
| ErrSend (cause : string)
| ErrRead (cause : string)
| ErrResponseLength
| ErrMeasurementInterval (interval : Z)
| ErrForcedRecalibration (value : Z)
| ErrAmbientPressure (ambientPressure : Z).

(** [%d] and [%x] of an unsigned integer. *)
Definition fmt_d (z : Z) : string :=
  DecimalString.NilZero.string_of_uint (N.to_uint (Z.to_N z)).
Definition fmt_x (z : Z) : string :=
  HexadecimalString.NilZero.string_of_uint (N.to_hex_uint (Z.to_N z)).

(** The message [err.Error()] renders. *)
Definition Error (e : error) : string :=
  match e with
  | ErrCRC expectedCRC crc =>
      "CRC checksum failed, expected: '" ++ fmt_x expectedCRC
        ++ "', got: '" ++ fmt_x crc ++ "'"
  | ErrSend cause => "failed to send data: " ++ cause
  | ErrRead cause => "failed to read data: " ++ cause
  | ErrResponseLength =>
      "readAndCheckResponse only supports 3 bytes long responses (uint16+CRC8)"
  | ErrMeasurementInterval interval =>
      "invalid measurement interval: " ++ fmt_d interval ++ ", expected [2-1800]s"
  | ErrForcedRecalibration value =>
      "invalid forced recalibration value: " ++ fmt_d value ++ ", expected [400-2000]"
  | ErrAmbientPressure ambientPressure =>
      "invalid ambient pressure value: " ++ fmt_d ambientPressure
        ++ ", expected 0 or [700-1200]"
  end%string.

(** ** CRC8 (crc8.go) *)

(** One pass of the body of the bit loop of [computeCRC8]. *)
Definition crc8_round (crc : Z) : Z :=
  if negb (Z.land crc 0x80 =? 0)
  then uint8 (Z.lxor (uint8 (Z.shiftl crc 1)) 0x31)
  else uint8 (Z.shiftl crc 1).

(** The byte loop [for x := uint8(0); x < l; x++], from counter [x] and
    accumulator [crc]. The counter is a [uint8], so is [l]. *)
Equations? computeCRC8_loop (data : list Z) (l x crc : Z) : outcome Z
  by wf (Z.to_nat (uint8 l - x)) lt :=
  computeCRC8_loop data l x crc with Z_lt_dec x (uint8 l) => {
    | left _ with index data x => {
        | Returns b =>
            computeCRC8_loop data l (uint8 (x + 1))
              (Nat.iter 8 crc8_round (Z.lxor crc b));
        | Panics => Panics };
    | right _ => Returns crc }.
Proof.
  unfold uint8 in *.
  assert (uint8_l : l mod 2 ^ 8 < 2 ^ 8) by (apply Z.mod_pos_bound; lia).
  assert (x + 1 <= (x + 1) mod 2 ^ 8).
  { destruct (Z_lt_dec (x + 1) 0).
    - pose proof (Z.mod_pos_bound (x + 1) (2 ^ 8)); lia.
    - rewrite Z.mod_small; lia. }
  lia.
Qed.

Definition computeCRC8 (data : list Z) (l : Z) : outcome Z :=
  computeCRC8_loop data l (uint8 0) (uint8 0xFF).

Definition checkCRC8 (data : list Z) : outcome (option error) :=
  let l := uint8 (len data) in
  expectedCRC <-! index data (uint8 (l - 1)) ;;
  let expectedCRC := uint8 expectedCRC in
  crc <-! computeCRC8 data (uint8 (l - 1)) ;;
  if negb (crc =? expectedCRC)
  then Returns (Some (ErrCRC expectedCRC crc))
  else Returns None.


(** ** Registers (registers.go) *)

Definition I2C_ADDRESS : Z := 0x61.

Definition CMD_READ_VERSION : Z := 0xD100.
Definition CMD_READ_DATA_READY : Z := 0x0202.
Definition CMD_READ_MEASUREMENT : Z := 0x0300.

Definition CMD_SOFT_RESET : Z := 0xD304.
Definition CMD_START_CONTINUOUS_MEASUREMENT : Z := 0x0010.
Definition CMD_STOP_CONTINUOUS_MEASUREMENT : Z := 0x0104.

Definition CMD_MEASUREMENT_INTERVAL : Z := 0x4600.
Definition CMD_ALTITUDE_COMPENSATION : Z := 0x5102.
Definition CMD_FORCED_RECALIBRATION_VALUE : Z := 0x5204.
Definition CMD_SELF_CALIBRATION : Z := 0x5306.
Definition CMD_TEMPERATURE_OFFSET : Z := 0x5403.

Definition HAS_DATA_READY : Z := 0x0001.
Definition SELF_CALIBRATION_ENABLED : Z := 0x0001.
Definition SELF_CALIBRATION_DISABLED : Z := 0x0000.

Definition STOP_CONTINUOUS_MEASUREMENT : Z := 0x0001.
Definition RESET : Z := 0x0001.

(** ** The [Measurement] type *)

(** A [float32] is its IEEE-754 binary32 fields: sign bit, 8-bit biased
    exponent, 23-bit fraction. *)
Record float32 : Type := mkFloat32 {
  f32_sign : bool;
  f32_exponent : Z;
  f32_fraction : Z
}.

(** [math.Float32frombits] and [math.Float32bits] of Go's standard
    library: the fields of a 32-bit pattern, and the pattern of the
    fields. *)
Definition Float32frombits (b : Z) : float32 :=
  {| f32_sign := Z.testbit b 31;
     f32_exponent := Z.land (Z.shiftr b 23) 0xFF;
     f32_fraction := Z.land b 0x7FFFFF |}.

Definition Float32bits (f : float32) : Z :=
  Z.lor (Z.shiftl (if f32_sign f then 1 else 0) 31)
    (Z.lor (Z.shiftl (f32_exponent f) 23) (f32_fraction f)).

(** The rational a finite [float32] denotes; infinities and NaNs denote
    none. *)
Definition pow2 (e : Z) : Q :=
  if e <? 0 then 1 # Z.to_pos (2 ^ (- e)) else inject_Z (2 ^ e).

Definition float32_value (f : float32) : option Q :=
  let s := if f32_sign f then (-1) else 1 in
  if f32_exponent f =? 255 then None
  else if f32_exponent f =? 0
  then Some (inject_Z (s * f32_fraction f) * pow2 (-149))%Q
  else Some (inject_Z (s * (2 ^ 23 + f32_fraction f)) * pow2 (f32_exponent f - 150))%Q.

Definition float32_zero : float32 := Float32frombits 0.

Record Measurement : Type := mkMeasurement {
  CO2 : float32;
  Temperature : float32;
  Humidity : float32
}.

Definition Measurement_zero : Measurement :=
  {| CO2 := float32_zero; Temperature := float32_zero; Humidity := float32_zero |}.

(** ** The [I2C] interface (i2c.go) and the [Device] *)

(** [make([]byte, n)]. *)
Definition make_bytes (n : nat) : list Z := repeat 0 n.

(** What a callee can do to a slice it is handed: overwrite its cells
    with bytes, never change its length. *)
Fixpoint fill (r out : list Z) : list Z :=
  match r, out with
  | [], _ => []
  | _ :: _, [] => r
  | _ :: r', o :: out' => uint8 o :: fill r' out'
  end.

(** [values[v] = x]. *)
Fixpoint store_nat {A} (l : list A) (n : nat) (x : A) : outcome (list A) :=
  match l, n with
  | [], _ => Panics
  | _ :: l', O => Returns (x :: l')
  | a :: l', S n' => l'' <-! store_nat l' n' x ;; Returns (a :: l'')
  end.

Definition store {A} (l : list A) (i : Z) (x : A) : outcome (list A) :=
  if i <? 0 then Panics else store_nat l (Z.to_nat i) x.

(** What the driver does to the outside world, in order. *)
Inductive event : Type :=
| EvTx (addr : Z) (w r : list Z)
| EvSleep (duration : Z).

Section Driver.

(** The hidden state of the bus and of the chip behind it. *)
Context {BusState : Type}.

(** The [I2C] interface: one exchange, which answers with an error or
    nil and with the bytes it puts into [r]. *)
Record I2C : Type := mkI2C {
  Tx : Z -> list Z -> list Z -> BusState -> (option string * list Z) * BusState
}.

Record Device : Type := mkDevice {
  Address : Z;
  ClockStretching : Z;
  bus : I2C
}.

Record World : Type := mkWorld {
  bus_state : BusState;
  events : list event
}.

(** Driver code runs in the world and may panic. *)
Definition M (A : Type) : Type := World -> outcome (A * World).

Definition ret {A} (a : A) : M A := fun w => Returns (a, w).

Definition bind {A B} (m : M A) (k : A -> M B) : M B :=
  fun w => match m w with
           | Returns (a, w') => k a w'
           | Panics => Panics
           end.

Definition lift {A} (o : outcome A) : M A :=
  fun w => match o with
           | Returns a => Returns (a, w)
           | Panics => Panics
           end.

Notation "x <- m ;; k" := (bind m (fun x => k))
  (at level 61, m at next level, right associativity).
Notation "' pat <- m ;; k" := (bind m (fun x => match x with pat => k end))
  (at level 61, pat pattern, m at next level, right associativity).

(** [d.bus.Tx(addr, w, r)]: the error and the content of [r] after the
    exchange. *)
Definition bus_Tx (d : Device) (addr : Z) (w r : list Z)
  : M (option string * list Z) :=
  fun st =>
    let '((err, out), s') := Tx (bus d) addr w r (bus_state st) in
    Returns ((err, fill r out),
             {| bus_state := s'; events := events st ++ [EvTx addr w r] |}).

(** [time.Sleep(duration)]. *)
Definition Sleep (duration : Z) : M unit :=
  fun st =>
    Returns (tt, {| bus_state := bus_state st;
                    events := events st ++ [EvSleep duration] |}).

(** Functions that write into a slice argument return its content
    next to their Go result. *)
Definition readResponse (d : Device) (command : Z) (response : list Z)
  : M (list Z * option error) :=
  '(err, _) <- bus_Tx d (uint16 (Address d))
                 [uint8 (Z.shiftr command 8); uint8 (Z.land command 0xFF)]
                 [] ;;
  match err with
  | Some e => ret (response, Some (ErrSend e))
  | None =>
      _ <- Sleep (ClockStretching d) ;;
      '(err, response) <- bus_Tx d (uint16 (Address d)) [] response ;;
      match err with
      | Some e => ret (response, Some (ErrRead e))
      | None => ret (response, None)
      end
  end.

Definition readAndCheckResponse (d : Device) (command : Z) (response : list Z)
  : M (list Z * option error) :=
  if negb (len response =? 3) then ret (response, Some ErrResponseLength)
  else
    '(response, err) <- readResponse d command response ;;
    match err with
    | Some e => ret (response, Some e)
    | None =>
        err <- lift (checkCRC8 response) ;;
        ret (response, err)
    end.

Definition writeValue (d : Device) (command value : Z) : M (option error) :=
  crc <- lift (computeCRC8
                 [uint8 (Z.shiftr value 8); uint8 (Z.land value 0xFF)] 2) ;;
  '(err, _) <- bus_Tx d (uint16 (Address d))
                 [uint8 (Z.shiftr command 8);
                  uint8 (Z.land command 0xFF);
                  uint8 (Z.shiftr value 8);
                  uint8 (Z.land value 0xFF);
                  uint8 crc]
                 [] ;;
  match err with
  | Some e => ret (Some (ErrSend e))
  | None => ret None
  end.

Definition SoftReset (d : Device) : M (option error) :=
  writeValue d CMD_SOFT_RESET RESET.

Definition GetSoftwareVersion (d : Device) : M (string * option error) :=
  let version := EmptyString in
  let result := make_bytes 3 in
  '(result, err) <- readAndCheckResponse d CMD_READ_VERSION result ;;
  match err with
  | Some e => ret (version, Some e)
  | None =>
      r0 <- lift (index result 0) ;;
      r1 <- lift (index result 1) ;;
      ret ((fmt_d r0 ++ "." ++ fmt_d r1)%string, None)
  end.

Definition GetMeasurementInterval (d : Device) : M (Z * option error) :=
  let interval := 0 in
  let result := make_bytes 3 in
  '(result, err) <- readAndCheckResponse d CMD_MEASUREMENT_INTERVAL result ;;
  match err with
  | Some e => ret (interval, Some e)
  | None =>
      r0 <- lift (index result 0) ;;
      r1 <- lift (index result 1) ;;
      let interval := Z.lor (uint16 (Z.shiftl (uint16 r0) 8)) (uint16 r1) in
      ret (interval, None)
  end.

Definition SetMeasurementInterval (d : Device) (interval : Z)
  : M (option error) :=
  if (interval <? 2) || (interval >? 1800)
  then ret (Some (ErrMeasurementInterval interval))
  else writeValue d CMD_MEASUREMENT_INTERVAL interval.

Definition GetSelfCalibration (d : Device) : M (bool * option error) :=
  let enabled := false in
  let result := make_bytes 3 in
  '(result, err) <- readAndCheckResponse d CMD_SELF_CALIBRATION result ;;
  match err with
  | Some e => ret (enabled, Some e)
  | None =>
      r1 <- lift (index result 1) ;;
      ret (uint16 r1 =? SELF_CALIBRATION_ENABLED, None)
  end.

Definition SetSelfCalibration (d : Device) (enabled : bool)
  : M (option error) :=
  if enabled
  then writeValue d CMD_SELF_CALIBRATION SELF_CALIBRATION_ENABLED
  else writeValue d CMD_SELF_CALIBRATION SELF_CALIBRATION_DISABLED.

Definition GetForcedRecalibrationValue (d : Device) : M (Z * option error) :=
  let value := 0 in
  let result := make_bytes 3 in
  '(result, err) <- readAndCheckResponse d CMD_FORCED_RECALIBRATION_VALUE result ;;
  match err with
  | Some e => ret (value, Some e)
  | None =>
      r0 <- lift (index result 0) ;;
      r1 <- lift (index result 1) ;;
      let value := Z.lor (uint16 (Z.shiftl (uint16 r0) 8)) (uint16 r1) in
      ret (value, None)
  end.

Definition SetForcedRecalibrationValue (d : Device) (value : Z)
  : M (option error) :=
  if (value <? 400) || (value >? 2000)
  then ret (Some (ErrForcedRecalibration value))
  else writeValue d CMD_FORCED_RECALIBRATION_VALUE value.

Definition GetTemperatureOffset (d : Device) : M (Z * option error) :=
  let offset := 0 in
  let result := make_bytes 3 in
  '(result, err) <- readAndCheckResponse d CMD_TEMPERATURE_OFFSET result ;;
  match err with
  | Some e => ret (offset, Some e)
  | None =>
      r0 <- lift (index result 0) ;;
      r1 <- lift (index result 1) ;;
      let offset := Z.lor (uint16 (Z.shiftl (uint16 r0) 8)) (uint16 r1) in
      ret (offset, None)
  end.

Definition SetTemperatureOffset (d : Device) (offset : Z) : M (option error) :=
  writeValue d CMD_TEMPERATURE_OFFSET offset.

Definition GetAltitudeCompensation (d : Device) : M (Z * option error) :=
  let altitude := 0 in
  let result := make_bytes 3 in
  '(result, err) <- readAndCheckResponse d CMD_ALTITUDE_COMPENSATION result ;;
  match err with
  | Some e => ret (altitude, Some e)
  | None =>
      r0 <- lift (index result 0) ;;
      r1 <- lift (index result 1) ;;
      let altitude := Z.lor (uint16 (Z.shiftl (uint16 r0) 8)) (uint16 r1) in
      ret (altitude, None)
  end.

Definition SetAltitudeCompensation (d : Device) (altitude : Z)
  : M (option error) :=
  writeValue d CMD_ALTITUDE_COMPENSATION altitude.

Definition StartContinuousMeasurement (d : Device) (ambientPressure : Z)
  : M (option error) :=
  if negb (ambientPressure =? 0)
     && ((ambientPressure <? 700) || (ambientPressure >? 1200))
  then ret (Some (ErrAmbientPressure ambientPressure))
  else writeValue d CMD_START_CONTINUOUS_MEASUREMENT ambientPressure.

Definition StopContinuousMeasurement (d : Device) : M (option error) :=
  writeValue d CMD_STOP_CONTINUOUS_MEASUREMENT
    (uint16 STOP_CONTINUOUS_MEASUREMENT).

Definition HasDataReady (d : Device) : M (bool * option error) :=
  let result := make_bytes 3 in
  '(result, err) <- readAndCheckResponse d CMD_READ_DATA_READY result ;;
  match err with
  | Some e => ret (false, Some e)
  | None =>
      r1 <- lift (index result 1) ;;
      ret (uint16 r1 =? HAS_DATA_READY, None)
  end.

(** A counted loop [for c := c0; c < c0 + n; c++] over a loop state,
    whose body may leave the function early with an error. *)
Fixpoint for_loop {S} (n : nat) (c : Z)
    (body : Z -> S -> outcome (error + S)) (s : S) : outcome (error + S) :=
  match n with
  | O => Returns (inr s)
  | Datatypes.S n' =>
      r <-! body c s ;;
      match r with
      | inl e => Returns (inl e)
      | inr s' => for_loop n' (c + 1) body s'
      end
  end.

(** The body of [for c := 0; c < 2; c++] in [ReadMeasurement], on the
    variables [i], [chunk] and [value]. *)
Definition chunk_body (result : list Z) (c : Z) (st : Z * list Z * Z)
  : outcome (error + Z * list Z * Z) :=
  let '(i, chunk, value) := st in
  r0 <-! index result i ;;
  r1 <-! index result (i + 1) ;;
  r2 <-! index result (i + 2) ;;
  chunk <-! store chunk 0 r0 ;;
  chunk <-! store chunk 1 r1 ;;
  chunk <-! store chunk 2 r2 ;;
  err <-! checkCRC8 chunk ;;
  match err with
  | Some e => Returns (inl e)
  | None =>
      let value := uint32 (Z.shiftl value 8) in
      ri <-! index result i ;;
      let value := Z.lor value (uint32 ri) in
      let value := uint32 (Z.shiftl value 8) in
      ri1 <-! index result (i + 1) ;;
      let value := Z.lor value (uint32 ri1) in
      let i := i + 3 in
      Returns (inr (i, chunk, value))
  end.

(** The body of [for v := 0; v < len(values); v++]. *)
Definition value_body (result : list Z) (v : Z)
    (st : Z * list Z * Z * list float32)
  : outcome (error + Z * list Z * Z * list float32) :=
  let '(i, chunk, value, values) := st in
  let value := 0 in
  r <-! for_loop 2 0 (chunk_body result) (i, chunk, value) ;;
  match r with
  | inl e => Returns (inl e)
  | inr (i, chunk, value) =>
      values <-! store values v (Float32frombits value) ;;
      Returns (inr (i, chunk, value, values))
  end.

(** [ReadMeasurement] from the line [i := 0] on, given the bytes read
    into [result]. *)
Definition decode_measurement (measurement : Measurement) (result : list Z)
  : outcome (Measurement * option error) :=
  let i := 0 in
  let chunk := make_bytes 3 in
  let value := 0 in
  let values := repeat float32_zero 3 in
  r <-! for_loop (List.length values) 0 (value_body result)
          (i, chunk, value, values) ;;
  match r with
  | inl e => Returns (measurement, Some e)
  | inr (_, _, _, values) =>
      v0 <-! index values 0 ;;
      v1 <-! index values 1 ;;
      v2 <-! index values 2 ;;
      let measurement :=
        {| CO2 := v0; Temperature := v1; Humidity := v2 |} in
      Returns (measurement, None)
  end.

Definition ReadMeasurement (d : Device) : M (Measurement * option error) :=
  let measurement := Measurement_zero in
  let result := make_bytes 18 in
  '(result, err) <- readResponse d CMD_READ_MEASUREMENT result ;;
  match err with
  | Some e => ret (measurement, Some e)
  | None => lift (decode_measurement measurement result)
  end.

Definition New (b : I2C) : Device :=
  {| Address := I2C_ADDRESS;
     ClockStretching := 150 * 1000000;
     bus := b |}.

End Driver.

Arguments I2C BusState : clear implicits.
Arguments Device BusState : clear implicits.
Arguments World BusState : clear implicits.

(** ** A scripted transport

    A bus that answers each exchange with the next canned reply (an error
    or nil, and the bytes it puts on the wire); its state is the replies
    still to come. *)

Definition script : Type := list (option string * list Z).

Definition scripted_Tx (addr : Z) (w r : list Z) (s : script)
  : (option string * list Z) * script :=
  match s with
  | [] => ((Some "i2c: no reply"%string, []), [])
  | reply :: s' => (reply, s')
  end.

Definition scripted : I2C script := {| Tx := scripted_Tx |}.

Definition boot (s : script) : World script :=
  {| bus_state := s; events := [] |}.

(** ** The CRC8 the specification describes *)

Module Reference.

(** "if the top bit is set, shift left one bit and exclusive-OR with
    0x31, otherwise shift left one bit", on 8 bits without carry. *)
Definition top_bit (acc : Z) : bool := Z.testbit acc 7.
Definition shift_left (acc : Z) : Z := (2 * acc) mod 256.

Definition round (acc : Z) : Z :=
  if top_bit acc then Z.lxor (shift_left acc) 0x31 else shift_left acc.

(** "each byte is exclusive-OR'd in turn, followed by 8 rounds". *)
Definition absorb (acc b : Z) : Z :=
  round (round (round (round (round (round (round (round (Z.lxor acc b)))))))).

(** "an 8-bit accumulator initialized to 0xFF", over the first [l]
    bytes. *)
Definition crc8 (data : list Z) (l : nat) : Z :=
  fold_left absorb (firstn l data) 0xFF.

End Reference.

(** ** Frames

    The [k]-th 3-byte chunk of a response frame, and the big-endian
    number four bytes spell. *)

Definition chunk (frame : list Z) (k : nat) : list Z :=
  firstn 3 (skipn (3 * k) frame).

Definition big_endian_uint32 (b0 b1 b2 b3 : Z) : Z :=
  b0 * 2 ^ 24 + b1 * 2 ^ 16 + b2 * 2 ^ 8 + b3.

(** The response that carries CO2 = 400.0, temperature = 25.0 and
    humidity = 50.0. *)
Definition fixture : list Z :=
  [0x43; 0xC8; 0xDB;  0x00; 0x00; 0x81;
   0x41; 0xC8; 0x02;  0x00; 0x00; 0x81;
   0x42; 0x48; 0x55;  0x00; 0x00; 0x81].

Definition byte_at (frame : list Z) (n : nat) : Z := nth n frame 0.

(** The number spelled by the four data bytes of the [g]-th 6-byte group. *)
Definition data_word (frame : list Z) (g : nat) : Z :=
  big_endian_uint32
    (byte_at frame (6 * g)) (byte_at frame (6 * g + 1))
    (byte_at frame (6 * g + 3)) (byte_at frame (6 * g + 4)).

(** The accumulator [value] of [ReadMeasurement] after the two chunks of
    a group with data bytes [a b] and [c d]. *)
Definition folded (a b c d : Z) : Z :=
  Z.lor (uint32 (Z.shiftl
    (Z.lor (uint32 (Z.shiftl
      (Z.lor (uint32 (Z.shiftl
        (Z.lor (uint32 (Z.shiftl 0 8)) (uint32 a)) 8)) (uint32 b)) 8))
      (uint32 c)) 8)) (uint32 d).

Definition is_byte (b : Z) : Prop := 0 <= b < 256.

(** [f] is the finite float of value [q]. *)
Definition denotes (f : float32) (q : Q) : Prop :=
  match float32_value f with
  | Some v => (v == q)%Q
  | None => False
  end.

(** The fixture with the checksum of chunk 1, and of chunk 3, zeroed. *)
Definition fixture_bad_chunk_1 : list Z :=
  [0x43; 0xC8; 0xDB;  0x00; 0x00; 0x00;
   0x41; 0xC8; 0x02;  0x00; 0x00; 0x81;
   0x42; 0x48; 0x55;  0x00; 0x00; 0x81].

Definition fixture_bad_chunk_3 : list Z :=
  [0x43; 0xC8; 0xDB;  0x00; 0x00; 0x81;
   0x41; 0xC8; 0x02;  0x00; 0x00; 0x00;
   0x42; 0x48; 0x55;  0x00; 0x00; 0x81].

(** ** Exchanges *)

(** The bytes [writeValue] puts on the bus for a command and a [uint16]
    value. *)
Definition write_frame (command value : Z) : list Z :=
  [uint8 (Z.shiftr command 8); uint8 (Z.land command 0xFF);
   value / 256; value mod 256;
   Reference.crc8 [value / 256; value mod 256] 2].

(** The outcome of the single exchange that sends [frame] and reads
    nothing: the operation's error and the world after it. *)
Definition sent {BusState : Type} (d : Device BusState) (w : World BusState)
    (frame : list Z) : option error * World BusState :=
  let t := Tx (bus d) (uint16 (Address d)) frame [] (bus_state w) in
  (option_map ErrSend (fst (fst t)),
   {| bus_state := snd t;
      events := events w ++ [EvTx (uint16 (Address d)) frame []] |}).

Definition fixture_bus : World script := boot [(None, []); (None, fixture)].

(** The world once the scripted bus has answered a command with [n]
    bytes. *)
Definition answered (command : list Z) (n : nat) : World script :=
  {| bus_state := [];
     events := [EvTx 0x61 command [];
                EvSleep 150000000;
                EvTx 0x61 [] (make_bytes n)] |}.

(** ** Bytes and bus footprints *)

(** Every byte value. *)
Definition all_bytes : list Z := map Z.of_nat (seq 0 256).

(** What a read operation may have done on the bus between [w] and [w']
    when it returns [err]: the request alone, failed, or the request, the
    sleep and the read of [n] bytes. *)
Definition read_footprint {BusState : Type} (d : Device BusState)
    (request : list Z) (n : nat) (w w' : World BusState)
    (err : option error) : Prop :=
  (events w' = events w ++ [EvTx (uint16 (Address d)) request []]
   /\ exists cause, err = Some (ErrSend cause))
  \/ events w'
     = events w ++ [EvTx (uint16 (Address d)) request [];
                    EvSleep (ClockStretching d);
                    EvTx (uint16 (Address d)) [] (make_bytes n)].

(** The read failed with [e], or succeeded with bytes that fail the
    check with [e]. *)
Definition read_failed (frame : list Z) (err : option error) (e : error)
  : Prop :=
  err = Some e \/ (err = None /\ checkCRC8 frame = Returns (Some e)).

(** ** Tactics *)

(** Runs a getter to its [return] statements: one case per outcome of
    the calls it makes. *)
Ltac destruct_call call :=
  lazymatch call with
  | context [match ?inner with Returns _ => _ | Panics => _ end] =>
      destruct_call inner
  | _ => destruct call as [? | ]
  end.

Ltac run_to_returns :=
  unfold bind, ret, lift;
  repeat match goal with
    | |- context [let (_, _) := ?p in _] => is_var p; destruct p
    | |- context [match ?o with Some _ => _ | None => _ end] =>
        is_var o; destruct o
    | |- context [match ?s with inl _ => _ | inr _ => _ end] =>
        is_var s; destruct s
    | |- context [match ?call with Returns _ => _ | Panics => _ end] =>
        destruct_call call
    end;
  intros returned; (discriminate returned || (injection returned; congruence)).

(** Splits [Forall is_byte [b0; b1; ...]] into one fact per byte. *)
Ltac bytes_of H :=
  repeat match type of H with
    | Forall is_byte (_ :: _) =>
        let byte := fresh "byte" in
        let rest := fresh "rest" in
        apply Forall_cons_iff in H as [byte rest]; bytes_of rest
    | Forall is_byte [] => clear H
    end.

(** * Properties *)

(** ** Bit-level facts *)

Lemma land_0x80 (c : Z) :
  negb (Z.land c 0x80 =? 0) = Z.testbit c 7.
Proof.
  change 0x80 with (2 ^ 7).
  destruct (Z.testbit c 7) eqn:top.
  - apply negb_true_iff, Z.eqb_neq. intros zero.
    assert (bit : Z.testbit (Z.land c (2 ^ 7)) 7 = false)
      by (rewrite zero; apply Z.bits_0).
    rewrite Z.land_spec, top, Z.pow2_bits_eqb in bit by lia.
    discriminate.
  - apply negb_false_iff, Z.eqb_eq, Z.bits_inj'. intros n _.
    rewrite Z.land_spec, Z.pow2_bits_eqb, Z.bits_0 by lia.
    destruct (Z.eqb_spec 7 n) as [<- | _].
    + rewrite top. reflexivity.
    + apply andb_false_r.
Qed.

Lemma uint8_range (z : Z) : 0 <= uint8 z < 256.
Proof. unfold uint8. apply Z.mod_pos_bound. lia. Qed.

Lemma uint8_small (z : Z) : 0 <= z < 256 -> uint8 z = z.
Proof. intros. unfold uint8. apply Z.mod_small. assumption. Qed.

Lemma uint8_lxor (a b : Z) : uint8 (Z.lxor a b) = Z.lxor (uint8 a) (uint8 b).
Proof.
  unfold uint8. apply Z.bits_inj'. intros n _.
  rewrite Z.lxor_spec, !Z.testbit_mod_pow2, Z.lxor_spec by lia.
  destruct (n <? 8); reflexivity.
Qed.

Lemma crc8_round_reference (c : Z) : crc8_round c = Reference.round c.
Proof.
  unfold crc8_round, Reference.round, Reference.top_bit, Reference.shift_left.
  rewrite land_0x80, Z.shiftl_mul_pow2 by lia.
  replace (c * 2 ^ 1) with (2 * c) by lia.
  destruct (Z.testbit c 7); [ | reflexivity].
  rewrite uint8_lxor.
  rewrite (uint8_small (uint8 _)) by apply uint8_range.
  reflexivity.
Qed.

Lemma crc8_round_range (c : Z) : 0 <= crc8_round c < 256.
Proof. unfold crc8_round. destruct (negb _); apply uint8_range. Qed.

Lemma rounds_reference (acc b : Z) :
  Nat.iter 8 crc8_round (Z.lxor acc b) = Reference.absorb acc b.
Proof.
  unfold Reference.absorb. cbn [Nat.iter nat_rect].
  rewrite !crc8_round_reference. reflexivity.
Qed.

(** ** [computeCRC8] *)

Lemma index_nth {A} (data : list A) (n : nat) (a : A) :
  nth_error data n = Some a -> index data (Z.of_nat n) = Returns a.
Proof.
  intros found. unfold index.
  destruct (Z.ltb_spec (Z.of_nat n) 0); [lia | ].
  rewrite Nat2Z.id, found. reflexivity.
Qed.

Lemma index_in_range {A} (data : list A) (i : Z) :
  0 <= i < len data -> exists a, index data i = Returns a.
Proof.
  intros range. unfold index, len in *.
  destruct (Z.ltb_spec i 0); [lia | ].
  destruct (nth_error data (Z.to_nat i)) eqn:found; [eauto | ].
  apply nth_error_None in found. lia.
Qed.

Lemma index_out_of_range {A} (data : list A) (i : Z) :
  len data <= i -> index data i = Panics.
Proof.
  intros range. unfold index, len in *.
  destruct (Z.ltb_spec i 0); [reflexivity | ].
  destruct (nth_error data (Z.to_nat i)) eqn:found; [ | reflexivity].
  assert (nth_error data (Z.to_nat i) <> None) as inside by congruence.
  apply nth_error_Some in inside. lia.
Qed.

Lemma computeCRC8_loop_exit (data : list Z) (l x crc : Z) :
  ~ x < uint8 l -> computeCRC8_loop data l x crc = Returns crc.
Proof.
  intros stop. rewrite computeCRC8_loop_equation_1.
  destruct (Z_lt_dec x (uint8 l)); [contradiction | reflexivity].
Qed.

Lemma computeCRC8_loop_next (data : list Z) (l x crc b : Z) :
  x < uint8 l -> index data x = Returns b ->
  computeCRC8_loop data l x crc =
  computeCRC8_loop data l (uint8 (x + 1)) (Nat.iter 8 crc8_round (Z.lxor crc b)).
Proof.
  intros go found. rewrite computeCRC8_loop_equation_1.
  destruct (Z_lt_dec x (uint8 l)); [ | contradiction].
  cbn. rewrite found. reflexivity.
Qed.

Lemma computeCRC8_loop_panics (data : list Z) (l x crc : Z) :
  x < uint8 l -> index data x = Panics ->
  computeCRC8_loop data l x crc = Panics.
Proof.
  intros go missing. rewrite computeCRC8_loop_equation_1.
  destruct (Z_lt_dec x (uint8 l)); [ | contradiction].
  cbn. rewrite missing. reflexivity.
Qed.

(** From counter [n], the loop absorbs the bytes at [n], [n+1], ...,
    [l-1]. *)
Lemma computeCRC8_loop_reference (data : list Z) (l : Z) (k : nat) :
  forall (n : nat) (crc : Z),
    0 <= l < 256 -> l <= len data -> Z.of_nat (n + k) = l ->
    computeCRC8_loop data l (Z.of_nat n) crc =
    Returns (fold_left Reference.absorb (firstn k (skipn n data)) crc).
Proof.
  induction k as [ | k IH]; intros n crc byte_l short total.
  - rewrite computeCRC8_loop_exit; [reflexivity | ].
    rewrite uint8_small by assumption. lia.
  - destruct (nth_error data n) as [b | ] eqn:found.
    2:{ apply nth_error_None in found. unfold len in short. lia. }
    rewrite (computeCRC8_loop_next data l (Z.of_nat n) crc b).
    + rewrite uint8_small by lia.
      replace (Z.of_nat n + 1) with (Z.of_nat (S n)) by lia.
      rewrite IH by (assumption || lia).
      rewrite rounds_reference.
      clear - found. revert data found.
      induction n as [ | n IHn]; intros [ | a data] found; try discriminate.
      * cbn in *. injection found as ->. reflexivity.
      * cbn [skipn]. apply IHn. assumption.
    + rewrite uint8_small by assumption. lia.
    + apply index_nth. assumption.
Qed.

Lemma computeCRC8_reference (data : list Z) (l : Z) :
  0 <= l < 256 -> l <= len data ->
  computeCRC8 data l = Returns (Reference.crc8 data (Z.to_nat l)).
Proof.
  intros byte_l short. unfold computeCRC8, Reference.crc8.
  change (uint8 0) with (Z.of_nat 0). change (uint8 0xFF) with 0xFF.
  apply computeCRC8_loop_reference; (assumption || lia).
Qed.

Lemma absorb_range (acc b : Z) : 0 <= Reference.absorb acc b < 256.
Proof.
  unfold Reference.absorb. rewrite <- crc8_round_reference.
  apply crc8_round_range.
Qed.

Lemma fold_absorb_range (bytes : list Z) :
  forall acc, 0 <= acc < 256 ->
    0 <= fold_left Reference.absorb bytes acc < 256.
Proof.
  induction bytes as [ | b bytes IH]; intros acc range; cbn [fold_left].
  - assumption.
  - apply IH, absorb_range.
Qed.

Lemma reference_crc8_range (data : list Z) (l : nat) :
  0 <= Reference.crc8 data l < 256.
Proof. unfold Reference.crc8. apply fold_absorb_range. lia. Qed.

Lemma computeCRC8_whole (d : list Z) :
  len d <= 255 ->
  computeCRC8 d (len d) = Returns (Reference.crc8 d (List.length d)).
Proof.
  intros short. unfold len in *.
  rewrite computeCRC8_reference by (unfold len; lia).
  rewrite Nat2Z.id. reflexivity.
Qed.

Lemma last_index_wraps (n : Z) :
  0 <= n <= 255 -> uint8 (uint8 (n + 1) - 1) = n.
Proof.
  intros range. unfold uint8.
  rewrite Zminus_mod_idemp_l.
  replace (n + 1 - 1) with n by lia.
  apply Z.mod_small. lia.
Qed.

(** [checkCRC8] on a frame of at most 256 bytes, split into its covered
    bytes and its last byte. *)
Lemma checkCRC8_frame (d : list Z) (b : Z) :
  len d <= 255 -> 0 <= b < 256 ->
  checkCRC8 (d ++ [b]) =
  Returns (if negb (Reference.crc8 d (List.length d) =? b)
           then Some (ErrCRC b (Reference.crc8 d (List.length d)))
           else None).
Proof.
  intros short byte_b. unfold checkCRC8.
  assert (len (d ++ [b]) = len d + 1) as ->
      by (unfold len; rewrite length_app; cbn; lia).
  rewrite last_index_wraps by (unfold len in *; lia).
  unfold len at 1.
  rewrite (index_nth _ _ b)
    by (rewrite nth_error_app2, Nat.sub_diag by lia; reflexivity).
  cbn [obind]. rewrite (uint8_small b) by assumption.
  rewrite computeCRC8_reference
    by (unfold len in *; rewrite ?length_app; cbn; lia).
  cbn [obind]. unfold len, Reference.crc8.
  rewrite Nat2Z.id, firstn_app, Nat.sub_diag, firstn_all, firstn_O, app_nil_r.
  destruct (negb _); reflexivity.
Qed.

(** C2. For a byte slice [data] and a [uint8] length [l] not exceeding
    [len(data)], [computeCRC8(data, l)] returns the reference CRC8 of the
    specification: accumulator 0xFF, each of the first [l] bytes
    exclusive-OR'd in and followed by eight shift rounds with polynomial
    0x31 in 8-bit arithmetic. *)
Theorem computeCRC8_equals_reference (data : list Z) (l : Z) :
  0 <= l < 256 -> l <= len data ->
  computeCRC8 data l = Returns (Reference.crc8 data (Z.to_nat l)).
Proof.
  intros byte_l short. unfold computeCRC8, Reference.crc8.
  change (uint8 0) with (Z.of_nat 0). change (uint8 0xFF) with 0xFF.
  rewrite (computeCRC8_loop_reference data l (Z.to_nat l) 0 0xFF)
    by (assumption || lia).
  reflexivity.
Qed.

Lemma computeCRC8_equals_reference_witness :
  computeCRC8 [0xBE; 0xEF; 0x92] 2 =
  Returns (Reference.crc8 [0xBE; 0xEF; 0x92] (Z.to_nat 2)).
Proof.
  apply (computeCRC8_equals_reference [0xBE; 0xEF; 0x92] 2).
  - lia.
  - unfold len. simpl. lia.
Defined.

(** C7. [computeCRC8([0xBE, 0xEF], 2)] is 0x92. *)
Theorem computeCRC8_known_answer :
  computeCRC8 [0xBE; 0xEF] 2 = Returns 0x92.
Proof. reflexivity. Qed.

(** A frame of 257 bytes: [uint8(len(data))] is 1, so [checkCRC8]
    compares the first byte with the CRC8 of no bytes, whatever the last
    byte is. *)
Lemma checkCRC8_frame_of_257 (c : Z) :
  checkCRC8 (repeat 0 256 ++ [c]) = Returns (Some (ErrCRC 0x00 0xFF)).
Proof.
  unfold checkCRC8.
  assert (len (repeat 0 256 ++ [c]) = 257) as ->
      by (unfold len; rewrite length_app, repeat_length; reflexivity).
  change (uint8 (uint8 257 - 1)) with 0.
  change (index (repeat 0 256 ++ [c]) 0) with (Returns 0).
  cbn [obind]. unfold computeCRC8.
  rewrite computeCRC8_loop_exit by (vm_compute; discriminate).
  reflexivity.
Qed.

(** C3, as the specification states it, fails: for the sequence [d] of
    256 zero bytes no appended byte makes [checkCRC8] succeed, the
    checksum [computeCRC8] returns for [d] included. *)
Lemma checkCRC8_long_frame_counterexample :
  ~ (forall d : list Z,
        exists c, computeCRC8 d (len d) = Returns c
                  /\ checkCRC8 (d ++ [c]) = Returns None).
Proof.
  intros claim. destruct (claim (repeat 0 256)) as [c [_ verified]].
  rewrite checkCRC8_frame_of_257 in verified. discriminate.
Qed.

(** C3, amended. For every byte sequence [d] of at most 255 bytes,
    [checkCRC8] accepts [d] followed by [computeCRC8(d, len(d))], and
    rejects [d] followed by any other byte [b] with the checksum error
    that carries [b] as expected and the computed CRC8 as actual value. *)
Theorem checkCRC8_accepts_exactly_computeCRC8 (d : list Z) :
  len d <= 255 ->
  exists c,
    computeCRC8 d (len d) = Returns c
    /\ checkCRC8 (d ++ [c]) = Returns None
    /\ forall b, 0 <= b < 256 -> b <> c ->
         checkCRC8 (d ++ [b]) = Returns (Some (ErrCRC b c)).
Proof.
  intros short. exists (Reference.crc8 d (List.length d)).
  pose proof (reference_crc8_range d (List.length d)) as range.
  split; [ | split].
  - apply computeCRC8_whole. assumption.
  - rewrite checkCRC8_frame by assumption.
    rewrite Z.eqb_refl. reflexivity.
  - intros b byte_b differs. rewrite checkCRC8_frame by assumption.
    destruct (Z.eqb_spec (Reference.crc8 d (List.length d)) b) as [same | _].
    + congruence.
    + reflexivity.
Qed.

Lemma checkCRC8_accepts_exactly_computeCRC8_witness :
  exists c,
    computeCRC8 [0xBE; 0xEF] (len [0xBE; 0xEF]) = Returns c
    /\ checkCRC8 ([0xBE; 0xEF] ++ [c]) = Returns None
    /\ forall b, 0 <= b < 256 -> b <> c ->
         checkCRC8 ([0xBE; 0xEF] ++ [b]) = Returns (Some (ErrCRC b c)).
Proof.
  apply (checkCRC8_accepts_exactly_computeCRC8 [0xBE; 0xEF]).
  unfold len. simpl. lia.
Defined.

Lemma checkCRC8_returns (data : list Z) :
  1 <= len data <= 255 -> exists r, checkCRC8 data = Returns r.
Proof.
  intros range. unfold checkCRC8.
  rewrite (uint8_small (len data)) by lia.
  rewrite (uint8_small (len data - 1)) by lia.
  destruct (index_in_range data (len data - 1)) as [expected ->]; [lia | ].
  cbn [obind]. rewrite computeCRC8_reference by lia. cbn [obind].
  destruct (negb _); eauto.
Qed.

(** C9. [checkCRC8] is safe on non-empty frames only. On the empty slice
    its index [l-1], computed on [uint8], wraps to 255 and the indexing
    panics, so it neither succeeds nor returns a checksum error; on every
    frame of 1 to 255 bytes it returns. *)
Theorem checkCRC8_needs_nonempty_frame :
  uint8 (uint8 (len (@nil Z)) - 1) = 255
  /\ index (@nil Z) 255 = Panics
  /\ checkCRC8 [] = Panics
  /\ forall data : list Z,
       1 <= len data <= 255 -> exists r, checkCRC8 data = Returns r.
Proof.
  repeat split; try reflexivity.
  intros data range. apply checkCRC8_returns. assumption.
Qed.

Lemma checkCRC8_needs_nonempty_frame_witness :
  exists r, checkCRC8 [0xBE; 0xEF; 0x92] = Returns r.
Proof.
  apply (proj2 (proj2 (proj2 checkCRC8_needs_nonempty_frame))).
  unfold len. simpl. lia.
Defined.

(** ** [math.Float32bits] undoes [math.Float32frombits] *)

Lemma Float32bits_frombits (b : Z) :
  0 <= b < 2 ^ 32 -> Float32bits (Float32frombits b) = b.
Proof.
  intros range. unfold Float32bits, Float32frombits.
  cbn [f32_sign f32_exponent f32_fraction].
  apply Z.bits_inj'. intros n position.
  change 0xFF with (Z.ones 8). change 0x7FFFFF with (Z.ones 23).
  rewrite !Z.lor_spec, !Z.land_ones, !Z.shiftl_spec by lia.
  rewrite !Z.testbit_mod_pow2 by lia.
  destruct (Z.ltb_spec n 23) as [low | mid].
  - rewrite (Z.testbit_neg_r _ (n - 31)), (Z.testbit_neg_r _ (n - 23)) by lia.
    rewrite andb_false_r. reflexivity.
  - cbn [andb]. rewrite orb_false_r, Z.shiftr_spec by lia.
    replace (n - 23 + 23) with n by lia.
    destruct (Z.ltb_spec (n - 23) 8) as [exponent | high]; cbn [andb].
    + rewrite (Z.testbit_neg_r _ (n - 31)) by lia. reflexivity.
    + rewrite orb_false_r.
      destruct (Z.eq_dec n 31) as [-> | above].
      * destruct (Z.testbit b 31); reflexivity.
      * assert (Z.testbit b n = false) as ->.
        { rewrite <- (Z.mod_small b (2 ^ 32)) by assumption.
          rewrite Z.testbit_mod_pow2 by lia.
          destruct (Z.ltb_spec n 32); [lia | reflexivity]. }
        destruct (Z.testbit b 31).
        -- change 1 with (2 ^ 0). rewrite Z.pow2_bits_eqb by lia.
           apply Z.eqb_neq. lia.
        -- apply Z.bits_0.
Qed.

(** ** Writing a value *)

Lemma uint16_bytes (value : Z) :
  0 <= value < 2 ^ 16 ->
  uint8 (Z.shiftr value 8) = value / 256
  /\ uint8 (Z.land value 0xFF) = value mod 256.
Proof.
  intros range. rewrite Z.shiftr_div_pow2 by lia.
  change 0xFF with (Z.ones 8). rewrite Z.land_ones by lia.
  change (2 ^ 8) with 256.
  split; apply uint8_small.
  - split; [apply Z.div_pos; lia | apply Z.div_lt_upper_bound; lia].
  - apply Z.mod_pos_bound. lia.
Qed.

Section WriteValue.

Context {BusState : Type}.
Variables (d : Device BusState) (w : World BusState).

Lemma writeValue_sends (command value : Z) :
  0 <= value < 2 ^ 16 ->
  writeValue d command value w
  = Returns (sent d w (write_frame command value)).
Proof.
  intros range. unfold writeValue, bind, lift, bus_Tx, sent, write_frame.
  destruct (uint16_bytes value range) as [-> ->].
  rewrite computeCRC8_reference by (unfold len; simpl; lia).
  change (Z.to_nat 2) with 2%nat.
  rewrite (uint8_small (Reference.crc8 _ _)) by apply reference_crc8_range.
  destruct (Tx _ _ _ _ _) as [[[cause | ] out] s']; reflexivity.
Qed.

End WriteValue.

(** ** Reading a response *)

Lemma fill_length (r out : list Z) : List.length (fill r out) = List.length r.
Proof.
  revert out. induction r as [ | b r IH]; intros [ | o out]; cbn; auto.
Qed.

Lemma fill_bytes (r out : list Z) :
  Forall is_byte r -> Forall is_byte (fill r out).
Proof.
  intros bytes. revert out.
  induction bytes as [ | b r byte_b bytes IH]; intros [ | o out]; cbn; auto.
  constructor; [apply uint8_range | apply IH].
Qed.

Lemma make_bytes_bytes (n : nat) : Forall is_byte (make_bytes n).
Proof.
  apply Forall_forall. intros b zero.
  apply repeat_spec in zero. subst b. unfold is_byte. lia.
Qed.

Section Reading.

Context {BusState : Type}.
Variable d : Device BusState.

Lemma readResponse_buffer (command : Z) (response : list Z)
    (w w' : World BusState) (frame : list Z) (err : option error) :
  readResponse d command response w = Returns ((frame, err), w') ->
  List.length frame = List.length response
  /\ (Forall is_byte response -> Forall is_byte frame).
Proof.
  unfold readResponse, bind, ret, bus_Tx, Sleep. cbn.
  destruct (Tx _ _ _ _ _) as [[[cause | ] out] s']; cbn.
  - intros [= <- _ _]. auto.
  - destruct (Tx _ _ _ _ _) as [[[cause | ] out2] s2]; cbn;
      intros [= <- _ _]; split;
      (apply fill_length || apply fill_bytes).
Qed.

Lemma readResponse_returns (command : Z) (response : list Z)
    (w : World BusState) :
  exists frame err w',
    readResponse d command response w = Returns ((frame, err), w').
Proof.
  unfold readResponse, bind, ret, bus_Tx, Sleep. cbn.
  destruct (Tx _ _ _ _ _) as [[[cause | ] out] s']; cbn; eauto.
  destruct (Tx _ _ _ _ _) as [[[cause | ] out2] s2]; cbn; eauto.
Qed.

(** What a successful [readAndCheckResponse] into a fresh 3-byte buffer
    means: three bytes were read without transport error and pass
    [checkCRC8]. *)
Lemma readAndCheckResponse_verified (command : Z) (w w' : World BusState)
    (frame : list Z) :
  readAndCheckResponse d command (make_bytes 3) w
  = Returns ((frame, None), w') ->
  readResponse d command (make_bytes 3) w = Returns ((frame, None), w')
  /\ checkCRC8 frame = Returns None
  /\ exists b0 b1 c,
       frame = [b0; b1; c] /\ is_byte b0 /\ is_byte b1 /\ is_byte c.
Proof.
  unfold readAndCheckResponse.
  change (negb (len (make_bytes 3) =? 3)) with false. cbv iota. unfold bind.
  destruct (readResponse d command (make_bytes 3) w)
    as [[[frame' [e | ]] w1] | ] eqn:read; cbn; try discriminate.
  unfold lift.
  destruct (checkCRC8 frame') as [[mismatch | ] | ] eqn:check; cbn; try discriminate.
  intros [= -> ->].
  apply readResponse_buffer in read as [size bytes].
  specialize (bytes (make_bytes_bytes 3)).
  repeat split; try assumption.
  destruct frame as [ | b0 [ | b1 [ | c [ | ? ?]]]]; try discriminate.
  inversion bytes as [ | ? ? byte0 bytes1]; subst.
  inversion bytes1 as [ | ? ? byte1 bytes2]; subst.
  inversion bytes2 as [ | ? ? byte2 _]; subst.
  eauto 10.
Qed.

End Reading.

(** ** Setters *)

(** C5. [SetMeasurementInterval] on a [uint16] below 2 or above 1800
    returns the error "invalid measurement interval: <value>, expected
    [2-1800]s" and leaves the world as it was: no exchange on the bus.
    On a value in [2,1800] it performs exactly one exchange, sending
    0x46, 0x00, the value's high and low byte and the CRC8 of those two
    bytes. *)
Theorem SetMeasurementInterval_range {BusState : Type}
    (d : Device BusState) (w : World BusState) (interval : Z) :
  0 <= interval < 2 ^ 16 ->
  (interval < 2 \/ 1800 < interval ->
     SetMeasurementInterval d interval w
     = Returns (Some (ErrMeasurementInterval interval), w)
     /\ Error (ErrMeasurementInterval interval)
        = ("invalid measurement interval: " ++ fmt_d interval
             ++ ", expected [2-1800]s")%string)
  /\ (2 <= interval <= 1800 ->
        exists hi lo crc,
          is_byte hi /\ is_byte lo /\ hi * 256 + lo = interval
          /\ computeCRC8 [hi; lo] 2 = Returns crc
          /\ SetMeasurementInterval d interval w
             = Returns (sent d w [0x46; 0x00; hi; lo; crc])).
Proof.
  intros range. unfold SetMeasurementInterval. split.
  - intros outside.
    assert ((interval <? 2) || (interval >? 1800) = true) as ->
        by (apply orb_true_iff; lia).
    split; reflexivity.
  - intros inside.
    assert ((interval <? 2) || (interval >? 1800) = false) as ->
        by (apply orb_false_iff; lia).
    exists (interval / 256), (interval mod 256),
      (Reference.crc8 [interval / 256; interval mod 256] 2).
    pose proof (Z.mod_pos_bound interval 256 ltac:(lia)) as low.
    assert (is_byte (interval / 256)) as high
        by (split; [apply Z.div_pos | apply Z.div_lt_upper_bound]; lia).
    repeat split; try (apply high || apply low).
    + pose proof (Z.div_mod interval 256). lia.
    + apply (computeCRC8_reference [_; _] 2); [lia | unfold len; simpl; lia].
    + apply writeValue_sends. assumption.
Qed.

Lemma SetMeasurementInterval_range_witness :
  (SetMeasurementInterval (New scripted) 1 (boot [])
   = Returns (Some (ErrMeasurementInterval 1), boot [])
   /\ Error (ErrMeasurementInterval 1)
      = "invalid measurement interval: 1, expected [2-1800]s"%string)
  /\ (SetMeasurementInterval (New scripted) 1801 (boot [])
      = Returns (Some (ErrMeasurementInterval 1801), boot [])
      /\ Error (ErrMeasurementInterval 1801)
         = "invalid measurement interval: 1801, expected [2-1800]s"%string)
  /\ (exists hi lo crc,
        is_byte hi /\ is_byte lo /\ hi * 256 + lo = 2
        /\ computeCRC8 [hi; lo] 2 = Returns crc
        /\ SetMeasurementInterval (New scripted) 2 (boot [(None, [])])
           = Returns (sent (New scripted) (boot [(None, [])])
                        [0x46; 0x00; hi; lo; crc]))
  /\ (exists hi lo crc,
        is_byte hi /\ is_byte lo /\ hi * 256 + lo = 1800
        /\ computeCRC8 [hi; lo] 2 = Returns crc
        /\ SetMeasurementInterval (New scripted) 1800 (boot [(None, [])])
           = Returns (sent (New scripted) (boot [(None, [])])
                        [0x46; 0x00; hi; lo; crc])).
Proof.
  repeat apply conj.
  - apply (SetMeasurementInterval_range (New scripted) (boot []) 1); lia.
  - apply (SetMeasurementInterval_range (New scripted) (boot []) 1); lia.
  - apply (SetMeasurementInterval_range (New scripted) (boot []) 1801); lia.
  - apply (SetMeasurementInterval_range (New scripted) (boot []) 1801); lia.
  - apply (SetMeasurementInterval_range (New scripted) (boot [(None, [])]) 2);
      lia.
  - apply (SetMeasurementInterval_range (New scripted) (boot [(None, [])]) 1800);
      lia.
Defined.

(** C6. [StartContinuousMeasurement] accepts exactly the ambient
    pressures 0 and 700 to 1200: for these it performs one exchange,
    sending 0x00, 0x10, the value's high and low byte and their CRC8;
    for every other [uint16] it returns the error "invalid ambient
    pressure value: <value>, expected 0 or [700-1200]" and leaves the
    world as it was. *)
Theorem StartContinuousMeasurement_range {BusState : Type}
    (d : Device BusState) (w : World BusState) (ambientPressure : Z) :
  0 <= ambientPressure < 2 ^ 16 ->
  (ambientPressure = 0 \/ 700 <= ambientPressure <= 1200 ->
     exists hi lo crc,
       is_byte hi /\ is_byte lo /\ hi * 256 + lo = ambientPressure
       /\ computeCRC8 [hi; lo] 2 = Returns crc
       /\ StartContinuousMeasurement d ambientPressure w
          = Returns (sent d w [0x00; 0x10; hi; lo; crc]))
  /\ (~ (ambientPressure = 0 \/ 700 <= ambientPressure <= 1200) ->
        StartContinuousMeasurement d ambientPressure w
        = Returns (Some (ErrAmbientPressure ambientPressure), w)
        /\ Error (ErrAmbientPressure ambientPressure)
           = ("invalid ambient pressure value: " ++ fmt_d ambientPressure
                ++ ", expected 0 or [700-1200]")%string).
Proof.
  intros range. unfold StartContinuousMeasurement. split.
  - intros inside.
    assert (negb (ambientPressure =? 0)
            && ((ambientPressure <? 700) || (ambientPressure >? 1200))
            = false) as ->.
    { destruct (Z.eqb_spec ambientPressure 0); [reflexivity | ].
      cbn. apply orb_false_iff. lia. }
    exists (ambientPressure / 256), (ambientPressure mod 256),
      (Reference.crc8 [ambientPressure / 256; ambientPressure mod 256] 2).
    pose proof (Z.mod_pos_bound ambientPressure 256 ltac:(lia)) as low.
    assert (is_byte (ambientPressure / 256)) as high
        by (split; [apply Z.div_pos | apply Z.div_lt_upper_bound]; lia).
    repeat split; try (apply high || apply low).
    + pose proof (Z.div_mod ambientPressure 256). lia.
    + apply (computeCRC8_reference [_; _] 2); [lia | unfold len; simpl; lia].
    + apply writeValue_sends. assumption.
  - intros outside.
    assert (negb (ambientPressure =? 0)
            && ((ambientPressure <? 700) || (ambientPressure >? 1200))
            = true) as ->.
    { destruct (Z.eqb_spec ambientPressure 0); [lia | ].
      cbn. apply orb_true_iff. lia. }
    split; reflexivity.
Qed.

Lemma StartContinuousMeasurement_range_witness :
  (exists hi lo crc,
     is_byte hi /\ is_byte lo /\ hi * 256 + lo = 0
     /\ computeCRC8 [hi; lo] 2 = Returns crc
     /\ StartContinuousMeasurement (New scripted) 0 (boot [(None, [])])
        = Returns (sent (New scripted) (boot [(None, [])])
                     [0x00; 0x10; hi; lo; crc]))
  /\ (exists hi lo crc,
        is_byte hi /\ is_byte lo /\ hi * 256 + lo = 700
        /\ computeCRC8 [hi; lo] 2 = Returns crc
        /\ StartContinuousMeasurement (New scripted) 700 (boot [(None, [])])
           = Returns (sent (New scripted) (boot [(None, [])])
                        [0x00; 0x10; hi; lo; crc]))
  /\ (exists hi lo crc,
        is_byte hi /\ is_byte lo /\ hi * 256 + lo = 1200
        /\ computeCRC8 [hi; lo] 2 = Returns crc
        /\ StartContinuousMeasurement (New scripted) 1200 (boot [(None, [])])
           = Returns (sent (New scripted) (boot [(None, [])])
                        [0x00; 0x10; hi; lo; crc]))
  /\ StartContinuousMeasurement (New scripted) 699 (boot [(None, [])])
     = Returns (Some (ErrAmbientPressure 699), boot [(None, [])])
  /\ StartContinuousMeasurement (New scripted) 1201 (boot [(None, [])])
     = Returns (Some (ErrAmbientPressure 1201), boot [(None, [])])
  /\ StartContinuousMeasurement (New scripted) 50 (boot [(None, [])])
     = Returns (Some (ErrAmbientPressure 50), boot [(None, [])]).
Proof.
  repeat apply conj.
  - apply (StartContinuousMeasurement_range
             (New scripted) (boot [(None, [])]) 0); lia.
  - apply (StartContinuousMeasurement_range
             (New scripted) (boot [(None, [])]) 700); lia.
  - apply (StartContinuousMeasurement_range
             (New scripted) (boot [(None, [])]) 1200); lia.
  - apply (StartContinuousMeasurement_range
             (New scripted) (boot [(None, [])]) 699); lia.
  - apply (StartContinuousMeasurement_range
             (New scripted) (boot [(None, [])]) 1201); lia.
  - apply (StartContinuousMeasurement_range
             (New scripted) (boot [(None, [])]) 50); lia.
Defined.

(** ** Getters *)

Lemma uint16_byte (b : Z) : is_byte b -> uint16 b = b.
Proof. unfold is_byte, uint16. intros. apply Z.mod_small. lia. Qed.

(** C8. When the 3-byte response to the self-calibration command is
    read and verified, [GetSelfCalibration] returns without error the
    boolean "byte 1 equals 0x01": true for 0x01, false for 0x00, whatever
    byte 0 is. *)
Theorem GetSelfCalibration_byte_1 {BusState : Type}
    (d : Device BusState) (w w' : World BusState) (b0 b1 c : Z) :
  readAndCheckResponse d CMD_SELF_CALIBRATION (make_bytes 3) w
  = Returns (([b0; b1; c], None), w') ->
  GetSelfCalibration d w = Returns ((b1 =? 0x01, None), w')
  /\ (b1 = 0x01 -> GetSelfCalibration d w = Returns ((true, None), w'))
  /\ (b1 = 0x00 -> GetSelfCalibration d w = Returns ((false, None), w')).
Proof.
  intros verified.
  assert (GetSelfCalibration d w = Returns ((b1 =? 0x01, None), w')) as run.
  { unfold GetSelfCalibration, bind. rewrite verified.
    apply readAndCheckResponse_verified in verified
      as (_ & _ & x0 & x1 & x2 & [= -> -> ->] & _ & byte1 & _).
    change (index [x0; x1; x2] 1) with (Returns x1).
    cbn -[uint16]. rewrite uint16_byte by assumption. reflexivity. }
  repeat split; try assumption; intros ->; exact run.
Qed.

Lemma GetSelfCalibration_byte_1_witness :
  (GetSelfCalibration (New scripted) (boot [(None, []); (None, [0x00; 0x01; 0xB0])])
   = Returns ((true, None),
              {| bus_state := [];
                 events := [EvTx 0x61 [0x53; 0x06] [];
                            EvSleep 150000000;
                            EvTx 0x61 [] [0; 0; 0]] |}))
  /\ (GetSelfCalibration (New scripted) (boot [(None, []); (None, [0xAB; 0x01; 0x55])])
      = Returns ((true, None),
                 {| bus_state := [];
                    events := [EvTx 0x61 [0x53; 0x06] [];
                               EvSleep 150000000;
                               EvTx 0x61 [] [0; 0; 0]] |}))
  /\ (GetSelfCalibration (New scripted) (boot [(None, []); (None, [0x00; 0x00; 0x81])])
      = Returns ((false, None),
                 {| bus_state := [];
                    events := [EvTx 0x61 [0x53; 0x06] [];
                               EvSleep 150000000;
                               EvTx 0x61 [] [0; 0; 0]] |})).
Proof.
  repeat apply conj.
  - apply (GetSelfCalibration_byte_1 (New scripted)
             (boot [(None, []); (None, [0x00; 0x01; 0xB0])]) _ 0x00 0x01 0xB0);
      reflexivity.
  - apply (GetSelfCalibration_byte_1 (New scripted)
             (boot [(None, []); (None, [0xAB; 0x01; 0x55])]) _ 0xAB 0x01 0x55);
      reflexivity.
  - apply (GetSelfCalibration_byte_1 (New scripted)
             (boot [(None, []); (None, [0x00; 0x00; 0x81])]) _ 0x00 0x00 0x81);
      reflexivity.
Defined.

(** ** Results that accompany an error *)

Section ErrorResults.

Context {BusState : Type}.
Variables (d : Device BusState) (w : World BusState).

Lemma GetSoftwareVersion_error version e w' :
  GetSoftwareVersion d w = Returns ((version, Some e), w') ->
  version = EmptyString.
Proof. unfold GetSoftwareVersion. run_to_returns. Qed.

Lemma GetMeasurementInterval_error interval e w' :
  GetMeasurementInterval d w = Returns ((interval, Some e), w') ->
  interval = 0.
Proof. unfold GetMeasurementInterval. run_to_returns. Qed.

Lemma GetSelfCalibration_error enabled e w' :
  GetSelfCalibration d w = Returns ((enabled, Some e), w') ->
  enabled = false.
Proof. unfold GetSelfCalibration. run_to_returns. Qed.

Lemma GetForcedRecalibrationValue_error value e w' :
  GetForcedRecalibrationValue d w = Returns ((value, Some e), w') ->
  value = 0.
Proof. unfold GetForcedRecalibrationValue. run_to_returns. Qed.

Lemma GetTemperatureOffset_error offset e w' :
  GetTemperatureOffset d w = Returns ((offset, Some e), w') ->
  offset = 0.
Proof. unfold GetTemperatureOffset. run_to_returns. Qed.

Lemma GetAltitudeCompensation_error altitude e w' :
  GetAltitudeCompensation d w = Returns ((altitude, Some e), w') ->
  altitude = 0.
Proof. unfold GetAltitudeCompensation. run_to_returns. Qed.

Lemma HasDataReady_error isReady e w' :
  HasDataReady d w = Returns ((isReady, Some e), w') ->
  isReady = false.
Proof. unfold HasDataReady. run_to_returns. Qed.

Lemma ReadMeasurement_error measurement e w' :
  ReadMeasurement d w = Returns ((measurement, Some e), w') ->
  measurement = Measurement_zero.
Proof.
  unfold ReadMeasurement, decode_measurement, obind. run_to_returns.
Qed.

End ErrorResults.

(** ** Decoding a measurement *)

(** The checks and the result of the decoding loop on 18 bytes, chunk by
    chunk. *)
Lemma decode_measurement_frame (m : Measurement)
    (b0 b1 c0 b2 b3 c1 b4 b5 c2 b6 b7 c3 b8 b9 c4 b10 b11 c5 : Z) :
  decode_measurement m
    [b0; b1; c0; b2; b3; c1; b4; b5; c2; b6; b7; c3; b8; b9; c4; b10; b11; c5]
  = (e0 <-! checkCRC8 [b0; b1; c0] ;;
     match e0 with Some e => Returns (m, Some e) | None =>
     e1 <-! checkCRC8 [b2; b3; c1] ;;
     match e1 with Some e => Returns (m, Some e) | None =>
     e2 <-! checkCRC8 [b4; b5; c2] ;;
     match e2 with Some e => Returns (m, Some e) | None =>
     e3 <-! checkCRC8 [b6; b7; c3] ;;
     match e3 with Some e => Returns (m, Some e) | None =>
     e4 <-! checkCRC8 [b8; b9; c4] ;;
     match e4 with Some e => Returns (m, Some e) | None =>
     e5 <-! checkCRC8 [b10; b11; c5] ;;
     match e5 with Some e => Returns (m, Some e) | None =>
     Returns ({| CO2 := Float32frombits (folded b0 b1 b2 b3);
                 Temperature := Float32frombits (folded b4 b5 b6 b7);
                 Humidity := Float32frombits (folded b8 b9 b10 b11) |}, None)
     end end end end end end).
Proof.
  unfold folded.
  cbv - [checkCRC8 uint32 Z.lor Z.shiftl Float32frombits].
  destruct (checkCRC8 [b0; b1; c0]) as [[e | ] | ]; try reflexivity.
  destruct (checkCRC8 [b2; b3; c1]) as [[e | ] | ]; try reflexivity.
  destruct (checkCRC8 [b4; b5; c2]) as [[e | ] | ]; try reflexivity.
  destruct (checkCRC8 [b6; b7; c3]) as [[e | ] | ]; try reflexivity.
  destruct (checkCRC8 [b8; b9; c4]) as [[e | ] | ]; try reflexivity.
  destruct (checkCRC8 [b10; b11; c5]) as [[e | ] | ]; reflexivity.
Qed.

Lemma byte_high_bits (b n : Z) : is_byte b -> 8 <= n -> Z.testbit b n = false.
Proof.
  intros byte_b high. rewrite <- (uint8_small b) by assumption.
  unfold uint8. rewrite Z.testbit_mod_pow2 by lia.
  destruct (Z.ltb_spec n 8); [lia | reflexivity].
Qed.

(** Shifting in a byte: [value <<= 8; value |= b]. *)
Lemma shift_in_byte (v b : Z) :
  0 <= v < 2 ^ 24 -> is_byte b ->
  Z.lor (uint32 (Z.shiftl v 8)) (uint32 b) = v * 256 + b.
Proof.
  intros small byte_b. unfold is_byte in byte_b.
  rewrite Z.shiftl_mul_pow2 by lia. change (2 ^ 8) with 256.
  unfold uint32. rewrite !Z.mod_small by lia.
  rewrite <- (Z.add_lor_land (v * 256) b).
  assert (Z.land (v * 256) b = 0) as ->; [ | lia].
  apply Z.bits_inj'. intros n position.
  rewrite Z.land_spec, Z.bits_0.
  destruct (Z.ltb_spec n 8).
  - change 256 with (2 ^ 8). rewrite Z.mul_pow2_bits_low by lia. reflexivity.
  - rewrite (byte_high_bits b n) by (assumption || lia). apply andb_false_r.
Qed.

Lemma folded_big_endian (a b c d : Z) :
  is_byte a -> is_byte b -> is_byte c -> is_byte d ->
  folded a b c d = big_endian_uint32 a b c d.
Proof.
  unfold is_byte. intros byte_a byte_b byte_c byte_d.
  unfold folded, big_endian_uint32.
  rewrite (shift_in_byte 0 a) by (unfold is_byte; lia).
  rewrite (shift_in_byte _ b) by (unfold is_byte; lia).
  rewrite (shift_in_byte _ c) by (unfold is_byte; lia).
  rewrite (shift_in_byte _ d) by (unfold is_byte; lia).
  lia.
Qed.

Lemma checkCRC8_chunk (a b c : Z) :
  is_byte c ->
  checkCRC8 [a; b; c] =
  Returns (if negb (Reference.crc8 [a; b] 2 =? c)
           then Some (ErrCRC c (Reference.crc8 [a; b] 2))
           else None).
Proof.
  intros byte_c.
  apply (checkCRC8_frame [a; b] c); [unfold len; simpl; lia | assumption].
Qed.

Lemma computeCRC8_chunk (a b c : Z) :
  computeCRC8 [a; b; c] 2 = Returns (Reference.crc8 [a; b] 2).
Proof.
  rewrite computeCRC8_reference by (unfold len; simpl; lia).
  unfold Reference.crc8. change (Z.to_nat 2) with 2%nat.
  cbn [firstn]. reflexivity.
Qed.

(** A frame read into an 18-byte buffer is 18 bytes. *)
Lemma eighteen_bytes (frame : list Z) :
  List.length frame = 18%nat -> Forall is_byte frame ->
  exists b0 b1 c0 b2 b3 c1 b4 b5 c2 b6 b7 c3 b8 b9 c4 b10 b11 c5,
    frame = [b0; b1; c0; b2; b3; c1; b4; b5; c2;
             b6; b7; c3; b8; b9; c4; b10; b11; c5]
    /\ Forall is_byte [b0; b1; c0; b2; b3; c1; b4; b5; c2;
                       b6; b7; c3; b8; b9; c4; b10; b11; c5].
Proof.
  intros size bytes.
  do 18 (destruct frame as [ | ? frame]; [discriminate size | ]).
  destruct frame; [ | discriminate size].
  repeat eexists. assumption.
Qed.

Section Decoding.

Context {BusState : Type}.
Variables (d : Device BusState) (w w' : World BusState) (frame : list Z).
Hypothesis read :
  readResponse d CMD_READ_MEASUREMENT (make_bytes 18) w
  = Returns ((frame, None), w').

Lemma ReadMeasurement_decode :
  ReadMeasurement d w
  = obind (decode_measurement Measurement_zero frame)
      (fun r => Returns (r, w')).
Proof.
  unfold ReadMeasurement, bind. rewrite read. reflexivity.
Qed.

Lemma read_eighteen_bytes :
  exists b0 b1 c0 b2 b3 c1 b4 b5 c2 b6 b7 c3 b8 b9 c4 b10 b11 c5,
    frame = [b0; b1; c0; b2; b3; c1; b4; b5; c2;
             b6; b7; c3; b8; b9; c4; b10; b11; c5]
    /\ Forall is_byte [b0; b1; c0; b2; b3; c1; b4; b5; c2;
                       b6; b7; c3; b8; b9; c4; b10; b11; c5].
Proof.
  destruct (readResponse_buffer _ _ _ _ _ _ _ read) as [size bytes].
  apply eighteen_bytes; [exact size | apply bytes, make_bytes_bytes].
Qed.

Lemma ReadMeasurement_all_chunks_verified :
  (forall k, (k < 6)%nat -> checkCRC8 (chunk frame k) = Returns None) ->
  ReadMeasurement d w
  = Returns (({| CO2 := Float32frombits (data_word frame 0);
                 Temperature := Float32frombits (data_word frame 1);
                 Humidity := Float32frombits (data_word frame 2) |},
              None), w').
Proof.
  intros verified. rewrite ReadMeasurement_decode.
  destruct read_eighteen_bytes
    as (b0 & b1 & c0 & b2 & b3 & c1 & b4 & b5 & c2 & b6 & b7 & c3
        & b8 & b9 & c4 & b10 & b11 & c5 & -> & bytes).
  rewrite decode_measurement_frame.
  pose proof (verified 0%nat ltac:(lia)) as v0.
  pose proof (verified 1%nat ltac:(lia)) as v1.
  pose proof (verified 2%nat ltac:(lia)) as v2.
  pose proof (verified 3%nat ltac:(lia)) as v3.
  pose proof (verified 4%nat ltac:(lia)) as v4.
  pose proof (verified 5%nat ltac:(lia)) as v5.
  cbn [chunk Nat.mul Nat.add skipn firstn] in v0, v1, v2, v3, v4, v5.
  rewrite v0, v1, v2, v3, v4, v5. cbn [obind].
  bytes_of bytes.
  rewrite !folded_big_endian by assumption.
  reflexivity.
Qed.

Lemma data_word_bits (g : nat) :
  (g < 3)%nat ->
  Float32bits (Float32frombits (data_word frame g)) = data_word frame g.
Proof.
  intros group.
  destruct read_eighteen_bytes
    as (b0 & b1 & c0 & b2 & b3 & c1 & b4 & b5 & c2 & b6 & b7 & c3
        & b8 & b9 & c4 & b10 & b11 & c5 & -> & bytes).
  bytes_of bytes. unfold is_byte in *.
  apply Float32bits_frombits.
  destruct g as [ | [ | [ | g]]]; [ .. | lia];
    unfold data_word, byte_at, big_endian_uint32;
    cbn [nth Nat.mul Nat.add]; lia.
Qed.

Lemma ReadMeasurement_first_bad_chunk (k : nat) :
  (k < 6)%nat ->
  (forall j, (j < k)%nat -> checkCRC8 (chunk frame j) = Returns None) ->
  checkCRC8 (chunk frame k) <> Returns None ->
  exists expectedCRC crc,
    nth_error frame (3 * k + 2) = Some expectedCRC
    /\ computeCRC8 (chunk frame k) 2 = Returns crc
    /\ crc <> expectedCRC
    /\ ReadMeasurement d w
       = Returns ((Measurement_zero, Some (ErrCRC expectedCRC crc)), w').
Proof.
  intros chunk_k verified bad. rewrite ReadMeasurement_decode.
  destruct read_eighteen_bytes
    as (b0 & b1 & c0 & b2 & b3 & c1 & b4 & b5 & c2 & b6 & b7 & c3
        & b8 & b9 & c4 & b10 & b11 & c5 & -> & bytes).
  rewrite decode_measurement_frame. bytes_of bytes.
  assert (forall a b c, is_byte c -> checkCRC8 [a; b; c] <> Returns None ->
            Reference.crc8 [a; b] 2 <> c
            /\ checkCRC8 [a; b; c]
               = Returns (Some (ErrCRC c (Reference.crc8 [a; b] 2))))
    as failing.
  { intros a b c byte_c. rewrite checkCRC8_chunk by assumption.
    destruct (Z.eqb_spec (Reference.crc8 [a; b] 2) c); cbn [negb].
    - intros bad'. contradiction bad'. reflexivity.
    - auto. }
  destruct k as [ | [ | [ | [ | [ | [ | k]]]]]]; [ .. | lia].
  all: repeat match goal with
         | |- context [checkCRC8 ?c] =>
             let v := fresh "v" in
             assert (checkCRC8 c = Returns None) as v
                 by (first [ apply (verified 0%nat); lia
                           | apply (verified 1%nat); lia
                           | apply (verified 2%nat); lia
                           | apply (verified 3%nat); lia
                           | apply (verified 4%nat); lia ]);
             rewrite v; clear v; cbn [obind]
         end.
  all: cbn [chunk Nat.mul Nat.add skipn firstn nth_error obind] in *.
  all: apply failing in bad as [differs ->]; [ | assumption].
  all: rewrite computeCRC8_chunk.
  all: eexists _, _; repeat split; (reflexivity || assumption).
Qed.

End Decoding.

(** ** The getters never panic *)

Section Totality.

Context {BusState : Type}.
Variables (d : Device BusState) (w : World BusState).

Lemma readAndCheckResponse_returns (command : Z) :
  exists b0 b1 c err w',
    readAndCheckResponse d command (make_bytes 3) w
    = Returns (([b0; b1; c], err), w').
Proof.
  unfold readAndCheckResponse.
  change (negb (len (make_bytes 3) =? 3)) with false. cbv iota. unfold bind.
  destruct (readResponse_returns d command (make_bytes 3) w)
    as (frame & err & w' & read).
  rewrite read.
  apply readResponse_buffer in read as [size _].
  destruct frame as [ | b0 [ | b1 [ | c [ | ? ?]]]]; try discriminate size.
  destruct err as [e | ]; [unfold ret; eauto 10 | ].
  destruct (checkCRC8_returns [b0; b1; c]) as [r check];
    [unfold len; simpl; lia | ].
  unfold lift, ret. rewrite check. eauto 10.
Qed.

Ltac run_getter command :=
  unfold bind;
  destruct (readAndCheckResponse_returns command)
    as (b0 & b1 & c & [e | ] & w' & ->);
  [ unfold ret; eauto
  | change (index [b0; b1; c] 0) with (Returns b0);
    change (index [b0; b1; c] 1) with (Returns b1);
    unfold lift, ret; eauto ].

Lemma GetSoftwareVersion_returns :
  exists version err w', GetSoftwareVersion d w = Returns ((version, err), w').
Proof. unfold GetSoftwareVersion. run_getter CMD_READ_VERSION. Qed.

Lemma GetMeasurementInterval_returns :
  exists interval err w',
    GetMeasurementInterval d w = Returns ((interval, err), w').
Proof. unfold GetMeasurementInterval. run_getter CMD_MEASUREMENT_INTERVAL. Qed.

Lemma GetSelfCalibration_returns :
  exists enabled err w', GetSelfCalibration d w = Returns ((enabled, err), w').
Proof. unfold GetSelfCalibration. run_getter CMD_SELF_CALIBRATION. Qed.

Lemma GetForcedRecalibrationValue_returns :
  exists value err w',
    GetForcedRecalibrationValue d w = Returns ((value, err), w').
Proof.
  unfold GetForcedRecalibrationValue. run_getter CMD_FORCED_RECALIBRATION_VALUE.
Qed.

Lemma GetTemperatureOffset_returns :
  exists offset err w', GetTemperatureOffset d w = Returns ((offset, err), w').
Proof. unfold GetTemperatureOffset. run_getter CMD_TEMPERATURE_OFFSET. Qed.

Lemma GetAltitudeCompensation_returns :
  exists altitude err w',
    GetAltitudeCompensation d w = Returns ((altitude, err), w').
Proof. unfold GetAltitudeCompensation. run_getter CMD_ALTITUDE_COMPENSATION. Qed.

Lemma HasDataReady_returns :
  exists isReady err w', HasDataReady d w = Returns ((isReady, err), w').
Proof. unfold HasDataReady. run_getter CMD_READ_DATA_READY. Qed.

Lemma ReadMeasurement_returns :
  exists measurement err w',
    ReadMeasurement d w = Returns ((measurement, err), w').
Proof.
  destruct (readResponse_returns d CMD_READ_MEASUREMENT (make_bytes 18) w)
    as (frame & [e | ] & w' & read).
  - unfold ReadMeasurement, bind. rewrite read. unfold ret. eauto.
  - rewrite (ReadMeasurement_decode d w w' frame read).
    destruct (read_eighteen_bytes d w w' frame read)
      as (b0 & b1 & c0 & b2 & b3 & c1 & b4 & b5 & c2 & b6 & b7 & c3
          & b8 & b9 & c4 & b10 & b11 & c5 & -> & bytes).
    rewrite decode_measurement_frame. bytes_of bytes.
    rewrite !checkCRC8_chunk by assumption.
    repeat match goal with
      | |- context [negb ?test] => destruct test; cbn [negb obind]
      end; eauto.
Qed.

End Totality.

(** Among the first [n] chunks either all pass [checkCRC8] or there is a
    first one that does not. *)
Lemma first_bad_chunk (frame : list Z) (n : nat) :
  (forall j, (j < n)%nat -> checkCRC8 (chunk frame j) = Returns None)
  \/ exists k, (k < n)%nat
       /\ (forall j, (j < k)%nat -> checkCRC8 (chunk frame j) = Returns None)
       /\ checkCRC8 (chunk frame k) <> Returns None.
Proof.
  induction n as [ | n [verified | (k & chunk_k & verified & bad)]].
  - left. intros j impossible. lia.
  - destruct (checkCRC8 (chunk frame n)) as [[e | ] | ] eqn:check.
    + right. exists n. rewrite check. repeat split; (lia || auto || discriminate).
    + left. intros j below.
      destruct (Nat.eq_dec j n) as [-> | ]; [assumption | apply verified; lia].
    + right. exists n. rewrite check. repeat split; (lia || auto || discriminate).
  - right. exists k. auto.
Qed.

(** C1. When the 18 bytes read for the measurement command carry a
    correct CRC8 in each of their six chunks, [ReadMeasurement] returns
    without error the measurement whose CO2, Temperature and Humidity
    are the floats with the bit patterns of the big-endian [uint32]s
    spelled by the four data bytes of the first, second and third 6-byte
    group: the bit pattern of each float is that number, unscaled. On
    the fixture it returns 400.0, 25.0 and 50.0. *)
Theorem ReadMeasurement_big_endian_floats :
  (forall (BusState : Type) (d : Device BusState) (w w' : World BusState)
          (frame : list Z),
      readResponse d CMD_READ_MEASUREMENT (make_bytes 18) w
      = Returns ((frame, None), w') ->
      (forall k, (k < 6)%nat -> checkCRC8 (chunk frame k) = Returns None) ->
      exists m,
        ReadMeasurement d w = Returns ((m, None), w')
        /\ CO2 m = Float32frombits (data_word frame 0)
        /\ Temperature m = Float32frombits (data_word frame 1)
        /\ Humidity m = Float32frombits (data_word frame 2)
        /\ Float32bits (CO2 m) = data_word frame 0
        /\ Float32bits (Temperature m) = data_word frame 1
        /\ Float32bits (Humidity m) = data_word frame 2)
  /\ (ReadMeasurement (New scripted) fixture_bus
      = Returns (({| CO2 := Float32frombits 0x43C80000;
                     Temperature := Float32frombits 0x41C80000;
                     Humidity := Float32frombits 0x42480000 |},
                  None), answered [0x03; 0x00] 18)
      /\ denotes (Float32frombits 0x43C80000) 400
      /\ denotes (Float32frombits 0x41C80000) 25
      /\ denotes (Float32frombits 0x42480000) 50).
Proof.
  split.
  - intros BusState d w w' frame read verified.
    eexists. split.
    + apply ReadMeasurement_all_chunks_verified; eassumption.
    + cbn [CO2 Temperature Humidity].
      repeat split; try reflexivity;
        apply (data_word_bits d w w' frame read); lia.
  - repeat split; vm_compute; reflexivity.
Qed.

Lemma ReadMeasurement_big_endian_floats_witness :
  exists m,
    ReadMeasurement (New scripted) fixture_bus
    = Returns ((m, None), answered [0x03; 0x00] 18)
    /\ CO2 m = Float32frombits (data_word fixture 0)
    /\ Temperature m = Float32frombits (data_word fixture 1)
    /\ Humidity m = Float32frombits (data_word fixture 2)
    /\ Float32bits (CO2 m) = data_word fixture 0
    /\ Float32bits (Temperature m) = data_word fixture 1
    /\ Float32bits (Humidity m) = data_word fixture 2.
Proof.
  apply (proj1 ReadMeasurement_big_endian_floats
           script (New scripted) fixture_bus (answered [0x03; 0x00] 18)
           fixture).
  - vm_compute. reflexivity.
  - intros k chunk_k.
    destruct k as [ | [ | [ | [ | [ | [ | k]]]]]]; [ .. | lia];
      vm_compute; reflexivity.
Defined.

(** C4, as the specification states it, fails: the error of a failed
    chunk carries the expected and the computed checksum and nothing
    else, so no function of the error tells which chunk failed. Chunk 1
    of one frame and chunk 3 of another fail with the same error. *)
Lemma ReadMeasurement_error_names_no_chunk :
  ~ (exists chunk_of : error -> nat,
       forall (frame : list Z) (k : nat) (m : Measurement) (e : error)
              (w' : World script),
         (k < 6)%nat ->
         (forall j, (j < k)%nat -> checkCRC8 (chunk frame j) = Returns None) ->
         checkCRC8 (chunk frame k) <> Returns None ->
         ReadMeasurement (New scripted) (boot [(None, []); (None, frame)])
         = Returns ((m, Some e), w') ->
         chunk_of e = k).
Proof.
  intros [chunk_of names].
  assert (chunk_of (ErrCRC 0x00 0x81) = 1%nat) as one.
  { apply (names fixture_bad_chunk_1 1%nat Measurement_zero _ (answered [0x03; 0x00] 18)).
    - lia.
    - intros [ | j] first; [vm_compute; reflexivity | lia].
    - vm_compute. discriminate.
    - vm_compute. reflexivity. }
  assert (chunk_of (ErrCRC 0x00 0x81) = 3%nat) as three.
  { apply (names fixture_bad_chunk_3 3%nat Measurement_zero _ (answered [0x03; 0x00] 18)).
    - lia.
    - intros [ | [ | [ | j]]] first; [ .. | lia]; vm_compute; reflexivity.
    - vm_compute. discriminate.
    - vm_compute. reflexivity. }
  congruence.
Qed.

(** C4, amended. Each chunk is checked on its own three bytes. When
    some chunk of the 18 bytes read fails its CRC8 check, [ReadMeasurement]
    stops at the first such chunk and returns, with no further exchange on
    the bus, the zero [Measurement] and the checksum error carrying that
    chunk's third byte as expected and the CRC8 of its two data bytes as
    computed value; the error does not say which chunk it was. *)
Theorem ReadMeasurement_all_or_nothing {BusState : Type}
    (d : Device BusState) (w w' : World BusState) (frame : list Z) :
  readResponse d CMD_READ_MEASUREMENT (make_bytes 18) w
  = Returns ((frame, None), w') ->
  (exists k, (k < 6)%nat /\ checkCRC8 (chunk frame k) <> Returns None) ->
  exists k expectedCRC crc,
    (k < 6)%nat
    /\ (forall j, (j < k)%nat -> checkCRC8 (chunk frame j) = Returns None)
    /\ nth_error frame (3 * k + 2) = Some expectedCRC
    /\ computeCRC8 (chunk frame k) 2 = Returns crc
    /\ crc <> expectedCRC
    /\ ReadMeasurement d w
       = Returns ((Measurement_zero, Some (ErrCRC expectedCRC crc)), w').
Proof.
  intros read [k [chunk_k bad]].
  destruct (first_bad_chunk frame (S k))
    as [verified | (k1 & chunk_k1 & verified & bad1)].
  { contradiction bad. apply verified. lia. }
  destruct (ReadMeasurement_first_bad_chunk d w w' frame read k1
              ltac:(lia) verified bad1)
    as (expectedCRC & crc & last & computed & differs & run).
  exists k1, expectedCRC, crc. repeat split; (assumption || lia).
Qed.

Lemma ReadMeasurement_all_or_nothing_witness :
  exists k expectedCRC crc,
    (k < 6)%nat
    /\ (forall j, (j < k)%nat ->
          checkCRC8 (chunk fixture_bad_chunk_1 j) = Returns None)
    /\ nth_error fixture_bad_chunk_1 (3 * k + 2) = Some expectedCRC
    /\ computeCRC8 (chunk fixture_bad_chunk_1 k) 2 = Returns crc
    /\ crc <> expectedCRC
    /\ ReadMeasurement (New scripted)
         (boot [(None, []); (None, fixture_bad_chunk_1)])
       = Returns ((Measurement_zero, Some (ErrCRC expectedCRC crc)),
                  answered [0x03; 0x00] 18).
Proof.
  apply (ReadMeasurement_all_or_nothing (New scripted)
           (boot [(None, []); (None, fixture_bad_chunk_1)])
           (answered [0x03; 0x00] 18) fixture_bad_chunk_1).
  - vm_compute. reflexivity.
  - exists 1%nat. split; [lia | vm_compute; discriminate].
Defined.

(** C10. Whenever one of the getters returns an error, the value it
    returns with it is the zero value of its type: the empty string, 0,
    false, or the [Measurement] whose three fields are zero. *)
Theorem getters_return_zero_value_on_error {BusState : Type}
    (d : Device BusState) (w : World BusState) :
  (forall version e w',
      GetSoftwareVersion d w = Returns ((version, Some e), w') ->
      version = EmptyString)
  /\ (forall interval e w',
        GetMeasurementInterval d w = Returns ((interval, Some e), w') ->
        interval = 0)
  /\ (forall enabled e w',
        GetSelfCalibration d w = Returns ((enabled, Some e), w') ->
        enabled = false)
  /\ (forall value e w',
        GetForcedRecalibrationValue d w = Returns ((value, Some e), w') ->
        value = 0)
  /\ (forall offset e w',
        GetTemperatureOffset d w = Returns ((offset, Some e), w') ->
        offset = 0)
  /\ (forall altitude e w',
        GetAltitudeCompensation d w = Returns ((altitude, Some e), w') ->
        altitude = 0)
  /\ (forall isReady e w',
        HasDataReady d w = Returns ((isReady, Some e), w') ->
        isReady = false)
  /\ (forall measurement e w',
        ReadMeasurement d w = Returns ((measurement, Some e), w') ->
        measurement = Measurement_zero
        /\ CO2 measurement = Float32frombits 0
        /\ Temperature measurement = Float32frombits 0
        /\ Humidity measurement = Float32frombits 0).
Proof.
  repeat apply conj.
  - apply GetSoftwareVersion_error.
  - apply GetMeasurementInterval_error.
  - apply GetSelfCalibration_error.
  - apply GetForcedRecalibrationValue_error.
  - apply GetTemperatureOffset_error.
  - apply GetAltitudeCompensation_error.
  - apply HasDataReady_error.
  - intros measurement e w' failed.
    apply ReadMeasurement_error in failed. subst measurement.
    repeat split.
Qed.

Lemma getters_return_zero_value_on_error_witness :
  (exists value,
      GetSoftwareVersion (New scripted) (boot [(None, []); (None, [1; 2; 3])])
      = Returns ((value, Some (ErrCRC 3 0x17)), answered [0xD1; 0x00] 3)
      /\ value = EmptyString)
  /\ (exists value,
      GetMeasurementInterval (New scripted) (boot [(None, []); (None, [1; 2; 3])])
      = Returns ((value, Some (ErrCRC 3 0x17)), answered [0x46; 0x00] 3)
      /\ value = 0)
  /\ (exists value,
      GetSelfCalibration (New scripted) (boot [(None, []); (Some "i2c: nack"%string, [0; 1])])
      = Returns ((value, Some (ErrRead "i2c: nack")), answered [0x53; 0x06] 3)
      /\ value = false)
  /\ (exists value,
      GetForcedRecalibrationValue (New scripted) (boot [(None, []); (None, [1; 2; 3])])
      = Returns ((value, Some (ErrCRC 3 0x17)), answered [0x52; 0x04] 3)
      /\ value = 0)
  /\ (exists value,
      GetTemperatureOffset (New scripted) (boot [(None, []); (None, [1; 2; 3])])
      = Returns ((value, Some (ErrCRC 3 0x17)), answered [0x54; 0x03] 3)
      /\ value = 0)
  /\ (exists value,
      GetAltitudeCompensation (New scripted) (boot [(None, []); (None, [1; 2; 3])])
      = Returns ((value, Some (ErrCRC 3 0x17)), answered [0x51; 0x02] 3)
      /\ value = 0)
  /\ (exists value,
      HasDataReady (New scripted) (boot [(None, []); (None, [0; 1; 0])])
      = Returns ((value, Some (ErrCRC 0 0xB0)), answered [0x02; 0x02] 3)
      /\ value = false)
  /\ (exists value,
      ReadMeasurement (New scripted) (boot [(None, []); (None, fixture_bad_chunk_3)])
      = Returns ((value, Some (ErrCRC 0 0x81)), answered [0x03; 0x00] 18)
      /\ value = Measurement_zero).
Proof.
  repeat apply conj.
  - exists (EmptyString). split; [vm_compute; reflexivity | ].
    apply ((proj1 (getters_return_zero_value_on_error (New scripted)
               (boot [(None, []); (None, [1; 2; 3])])))
             (EmptyString) (ErrCRC 3 0x17) (answered [0xD1; 0x00] 3)).
    vm_compute. reflexivity.
  - exists (0). split; [vm_compute; reflexivity | ].
    apply ((proj1 (proj2 (getters_return_zero_value_on_error (New scripted)
               (boot [(None, []); (None, [1; 2; 3])]))))
             (0) (ErrCRC 3 0x17) (answered [0x46; 0x00] 3)).
    vm_compute. reflexivity.
  - exists (false). split; [vm_compute; reflexivity | ].
    apply ((proj1 (proj2 (proj2 (getters_return_zero_value_on_error (New scripted)
               (boot [(None, []); (Some "i2c: nack"%string, [0; 1])])))))
             (false) (ErrRead "i2c: nack") (answered [0x53; 0x06] 3)).
    vm_compute. reflexivity.
  - exists (0). split; [vm_compute; reflexivity | ].
    apply ((proj1 (proj2 (proj2 (proj2 (getters_return_zero_value_on_error (New scripted)
               (boot [(None, []); (None, [1; 2; 3])]))))))
             (0) (ErrCRC 3 0x17) (answered [0x52; 0x04] 3)).
    vm_compute. reflexivity.
  - exists (0). split; [vm_compute; reflexivity | ].
    apply ((proj1 (proj2 (proj2 (proj2 (proj2 (getters_return_zero_value_on_error (New scripted)
               (boot [(None, []); (None, [1; 2; 3])])))))))
             (0) (ErrCRC 3 0x17) (answered [0x54; 0x03] 3)).
    vm_compute. reflexivity.
  - exists (0). split; [vm_compute; reflexivity | ].
    apply ((proj1 (proj2 (proj2 (proj2 (proj2 (proj2 (getters_return_zero_value_on_error (New scripted)
               (boot [(None, []); (None, [1; 2; 3])]))))))))
             (0) (ErrCRC 3 0x17) (answered [0x51; 0x02] 3)).
    vm_compute. reflexivity.
  - exists (false). split; [vm_compute; reflexivity | ].
    apply ((proj1 (proj2 (proj2 (proj2 (proj2 (proj2 (proj2 (getters_return_zero_value_on_error (New scripted)
               (boot [(None, []); (None, [0; 1; 0])])))))))))
             (false) (ErrCRC 0 0xB0) (answered [0x02; 0x02] 3)).
    vm_compute. reflexivity.
  - exists (Measurement_zero). split; [vm_compute; reflexivity | ].
    apply ((proj2 (proj2 (proj2 (proj2 (proj2 (proj2 (proj2 (getters_return_zero_value_on_error (New scripted)
               (boot [(None, []); (None, fixture_bad_chunk_3)])))))))))
             (Measurement_zero) (ErrCRC 0 0x81) (answered [0x03; 0x00] 18)).
    vm_compute. reflexivity.
Defined.

(** ** More on [computeCRC8] and [checkCRC8] *)

Lemma all_bytes_complete (b : Z) : is_byte b -> In b all_bytes.
Proof.
  intros byte_b. unfold is_byte in byte_b. unfold all_bytes.
  rewrite <- (Z2Nat.id b) by lia.
  apply in_map, in_seq. lia.
Qed.

Lemma rounds_injective_table :
  forallb (fun x =>
    forallb (fun y =>
      implb (Reference.absorb x 0 =? Reference.absorb y 0) (x =? y))
      all_bytes) all_bytes = true.
Proof. vm_compute. reflexivity. Qed.

(** The eight shift rounds permute the bytes. *)
Lemma rounds_injective (x y : Z) :
  is_byte x -> is_byte y ->
  Reference.absorb x 0 = Reference.absorb y 0 -> x = y.
Proof.
  intros byte_x byte_y same.
  pose proof rounds_injective_table as table.
  rewrite forallb_forall in table.
  specialize (table x (all_bytes_complete x byte_x)).
  rewrite forallb_forall in table.
  specialize (table y (all_bytes_complete y byte_y)).
  rewrite same, Z.eqb_refl in table. cbn [implb] in table.
  apply Z.eqb_eq. assumption.
Qed.

Lemma lxor_byte (a b : Z) : is_byte a -> is_byte b -> is_byte (Z.lxor a b).
Proof.
  intros byte_a byte_b. unfold is_byte.
  rewrite <- (uint8_small a), <- (uint8_small b), <- uint8_lxor
    by assumption.
  apply uint8_range.
Qed.

Lemma absorb_as_rounds (acc b : Z) :
  Reference.absorb acc b = Reference.absorb (Z.lxor acc b) 0.
Proof. unfold Reference.absorb. rewrite Z.lxor_0_r. reflexivity. Qed.

Lemma absorb_injective_byte (acc b b' : Z) :
  is_byte acc -> is_byte b -> is_byte b' ->
  Reference.absorb acc b = Reference.absorb acc b' -> b = b'.
Proof.
  intros byte_acc byte_b byte_b' same.
  rewrite (absorb_as_rounds acc b), (absorb_as_rounds acc b') in same.
  apply rounds_injective in same; try (apply lxor_byte; assumption).
  apply (f_equal (Z.lxor acc)) in same.
  rewrite <- !Z.lxor_assoc, Z.lxor_nilpotent, !Z.lxor_0_l in same.
  assumption.
Qed.

Lemma absorb_injective_acc (acc acc' b : Z) :
  is_byte acc -> is_byte acc' -> is_byte b ->
  Reference.absorb acc b = Reference.absorb acc' b -> acc = acc'.
Proof.
  intros byte_acc byte_acc' byte_b same.
  rewrite (absorb_as_rounds acc b), (absorb_as_rounds acc' b) in same.
  apply rounds_injective in same; try (apply lxor_byte; assumption).
  apply (f_equal (fun z => Z.lxor z b)) in same.
  rewrite !Z.lxor_assoc, Z.lxor_nilpotent, !Z.lxor_0_r in same.
  assumption.
Qed.

Lemma fold_absorb_injective (post : list Z) :
  Forall is_byte post ->
  forall acc acc', is_byte acc -> is_byte acc' ->
    fold_left Reference.absorb post acc = fold_left Reference.absorb post acc' ->
    acc = acc'.
Proof.
  induction 1 as [ | p post byte_p bytes IH]; intros acc acc' byte_acc byte_acc';
    cbn [fold_left]; [auto | ].
  intros same. apply IH in same; try apply absorb_range.
  apply absorb_injective_acc in same; assumption.
Qed.

(** Changing one byte of a sequence changes its CRC8. *)
Lemma reference_crc8_single_byte (pre post : list Z) (b b' : Z) :
  Forall is_byte pre -> Forall is_byte post -> is_byte b -> is_byte b' ->
  b <> b' ->
  Reference.crc8 (pre ++ b :: post) (List.length (pre ++ b :: post))
  <> Reference.crc8 (pre ++ b' :: post) (List.length (pre ++ b' :: post)).
Proof.
  intros bytes_pre bytes_post byte_b byte_b' differs.
  unfold Reference.crc8. rewrite !firstn_all, !fold_left_app.
  cbn [fold_left]. intros same.
  assert (is_byte (fold_left Reference.absorb pre 255)) as byte_acc
      by (apply fold_absorb_range; lia).
  apply fold_absorb_injective in same;
    try assumption; try apply absorb_range.
  apply absorb_injective_byte in same; auto.
Qed.

(** X1. A frame that passes [checkCRC8] no longer passes once one of its
    covered bytes is changed: the check returns the checksum error with
    the frame's last byte as expected and a different computed value. *)
Theorem checkCRC8_detects_changed_byte (pre post : list Z) (b b' c : Z) :
  len (pre ++ b :: post) <= 255 ->
  Forall is_byte pre -> Forall is_byte post ->
  is_byte b -> is_byte b' -> is_byte c ->
  b <> b' ->
  checkCRC8 ((pre ++ b :: post) ++ [c]) = Returns None ->
  exists crc,
    crc <> c
    /\ checkCRC8 ((pre ++ b' :: post) ++ [c]) = Returns (Some (ErrCRC c crc)).
Proof.
  intros short bytes_pre bytes_post byte_b byte_b' byte_c differs verified.
  assert (len (pre ++ b' :: post) = len (pre ++ b :: post)) as same_length
      by (unfold len; rewrite !length_app; reflexivity).
  rewrite checkCRC8_frame in verified by assumption.
  rewrite checkCRC8_frame by (assumption || lia).
  pose proof (reference_crc8_single_byte pre post b b'
                bytes_pre bytes_post byte_b byte_b' differs) as changed.
  destruct (Z.eqb_spec
              (Reference.crc8 (pre ++ b :: post)
                 (List.length (pre ++ b :: post))) c) as [good | ];
    [ | discriminate verified].
  exists (Reference.crc8 (pre ++ b' :: post) (List.length (pre ++ b' :: post))).
  destruct (Z.eqb_spec
              (Reference.crc8 (pre ++ b' :: post)
                 (List.length (pre ++ b' :: post))) c) as [bad | fine].
  - congruence.
  - split; [assumption | reflexivity].
Qed.

Lemma checkCRC8_detects_changed_byte_witness :
  exists crc,
    crc <> 0x92
    /\ checkCRC8 (([0xBE] ++ 0x00 :: []) ++ [0x92])
       = Returns (Some (ErrCRC 0x92 crc)).
Proof.
  apply (checkCRC8_detects_changed_byte [0xBE] [] 0xEF 0x00 0x92).
  - unfold len. simpl. lia.
  - repeat constructor; unfold is_byte; lia.
  - constructor.
  - unfold is_byte. lia.
  - unfold is_byte. lia.
  - unfold is_byte. lia.
  - lia.
  - vm_compute. reflexivity.
Defined.

Lemma computeCRC8_loop_overrun (data : list Z) (l : Z) (k : nat) :
  forall (n : nat) (crc : Z),
    0 <= l < 256 -> len data < l -> (n + k = List.length data)%nat ->
    computeCRC8_loop data l (Z.of_nat n) crc = Panics.
Proof.
  unfold len.
  induction k as [ | k IH]; intros n crc byte_l long total.
  - apply computeCRC8_loop_panics.
    + rewrite uint8_small by assumption. lia.
    + apply index_out_of_range. unfold len. lia.
  - destruct (index_in_range data (Z.of_nat n)) as [b found];
      [unfold len; lia | ].
    rewrite (computeCRC8_loop_next data l (Z.of_nat n) crc b);
      [ | rewrite uint8_small by assumption; lia | assumption].
    rewrite uint8_small by lia.
    replace (Z.of_nat n + 1) with (Z.of_nat (S n)) by lia.
    apply IH; (assumption || lia).
Qed.

(** X2. [computeCRC8] reads exactly the first [l] bytes: for [l = 0] it
    returns 0xFF whatever the slice, for [l] up to the slice's length
    the bytes after the first [l] do not matter, and for an [l] beyond
    the slice's length it panics on the index. *)
Theorem computeCRC8_reads_first_l_bytes :
  (forall data, computeCRC8 data 0 = Returns 0xFF)
  /\ (forall pre rest rest',
        len pre <= 255 ->
        computeCRC8 (pre ++ rest) (len pre)
        = computeCRC8 (pre ++ rest') (len pre))
  /\ (forall data l,
        0 <= l < 256 -> len data < l -> computeCRC8 data l = Panics).
Proof.
  split; [ | split].
  - intros data. unfold computeCRC8.
    apply computeCRC8_loop_exit. vm_compute. discriminate.
  - intros pre rest rest' short.
    assert (forall tail,
              computeCRC8 (pre ++ tail) (len pre)
              = Returns (fold_left Reference.absorb pre 0xFF)) as prefix.
    { intros tail.
      rewrite computeCRC8_reference
        by (unfold len in *; rewrite ?length_app; lia).
      unfold Reference.crc8, len.
      rewrite Nat2Z.id, firstn_app, Nat.sub_diag, firstn_all, firstn_O,
        app_nil_r.
      reflexivity. }
    rewrite !prefix. reflexivity.
  - intros data l byte_l long. unfold computeCRC8.
    change (uint8 0) with (Z.of_nat 0).
    apply (computeCRC8_loop_overrun data l (List.length data));
      (assumption || lia).
Qed.

Lemma computeCRC8_reads_first_l_bytes_witness :
  computeCRC8 ([0xBE; 0xEF] ++ [0x92]) (len [0xBE; 0xEF])
  = computeCRC8 ([0xBE; 0xEF] ++ []) (len [0xBE; 0xEF])
  /\ computeCRC8 [0xBE; 0xEF] 3 = Panics.
Proof.
  split.
  - apply (proj1 (proj2 computeCRC8_reads_first_l_bytes)
             [0xBE; 0xEF] [0x92] []).
    unfold len. simpl. lia.
  - apply (proj2 (proj2 computeCRC8_reads_first_l_bytes) [0xBE; 0xEF] 3).
    + lia.
    + unfold len. simpl. lia.
Defined.

(** ** More on writing *)

Lemma uint16_halves (value : Z) :
  0 <= value < 2 ^ 16 ->
  is_byte (value / 256) /\ is_byte (value mod 256)
  /\ value / 256 * 256 + value mod 256 = value.
Proof.
  intros range. unfold is_byte.
  pose proof (Z.mod_pos_bound value 256 ltac:(lia)).
  pose proof (Z.div_mod value 256 ltac:(lia)).
  assert (0 <= value / 256) by (apply Z.div_pos; lia).
  assert (value / 256 < 256) by (apply Z.div_lt_upper_bound; lia).
  lia.
Qed.

(** X3. [writeValue] performs exactly one exchange and no sleep: it
    sends the command's two bytes, the value's two bytes (high byte
    first) and a third byte with which the value's bytes pass
    [checkCRC8], and reads nothing. It returns nil when the exchange
    succeeds and the transport's error, wrapped by the "failed to send
    data" error, when it fails. *)
Theorem writeValue_one_exchange {BusState : Type}
    (d : Device BusState) (w : World BusState) (command value : Z) :
  0 <= command < 2 ^ 16 -> 0 <= value < 2 ^ 16 ->
  exists hi lo crc,
    is_byte hi /\ is_byte lo /\ hi * 256 + lo = value
    /\ checkCRC8 [hi; lo; crc] = Returns None
    /\ writeValue d command value w
       = Returns (sent d w [command / 256; command mod 256; hi; lo; crc]).
Proof.
  intros command_range value_range.
  destruct (uint16_halves value value_range) as (high & low & whole).
  exists (value / 256), (value mod 256),
    (Reference.crc8 [value / 256; value mod 256] 2).
  repeat split; try (apply high || apply low || exact whole).
  - rewrite checkCRC8_chunk by apply reference_crc8_range.
    rewrite Z.eqb_refl. reflexivity.
  - rewrite writeValue_sends by assumption. unfold write_frame.
    destruct (uint16_bytes command command_range) as [-> ->]. reflexivity.
Qed.

Lemma writeValue_one_exchange_witness :
  exists hi lo crc,
    is_byte hi /\ is_byte lo /\ hi * 256 + lo = 1800
    /\ checkCRC8 [hi; lo; crc] = Returns None
    /\ writeValue (New scripted) 0x4600 1800
         (boot [(Some "i2c: nack"%string, [])])
       = Returns (sent (New scripted) (boot [(Some "i2c: nack"%string, [])])
                    [0x4600 / 256; 0x4600 mod 256; hi; lo; crc]).
Proof.
  apply (writeValue_one_exchange (New scripted)
           (boot [(Some "i2c: nack"%string, [])]) 0x4600 1800); lia.
Defined.

Section Setters.

Context {BusState : Type}.
Variables (d : Device BusState) (w : World BusState).

(** What a setter that passes its value on to [writeValue] does. *)
Lemma writeValue_frame (command value : Z) :
  0 <= value < 2 ^ 16 ->
  exists hi lo crc,
    is_byte hi /\ is_byte lo /\ hi * 256 + lo = value
    /\ computeCRC8 [hi; lo] 2 = Returns crc
    /\ writeValue d command value w
       = Returns (sent d w [uint8 (Z.shiftr command 8);
                            uint8 (Z.land command 0xFF); hi; lo; crc]).
Proof.
  intros range.
  destruct (uint16_halves value range) as (high & low & whole).
  exists (value / 256), (value mod 256),
    (Reference.crc8 [value / 256; value mod 256] 2).
  repeat split; try (apply high || apply low || exact whole).
  - apply (computeCRC8_reference [_; _] 2); [lia | unfold len; simpl; lia].
  - apply writeValue_sends. assumption.
Qed.

End Setters.

(** X4. [SetForcedRecalibrationValue] on a [uint16] below 400 or above
    2000 returns the error "invalid forced recalibration value: <value>,
    expected [400-2000]" and leaves the world as it was; on a value in
    [400,2000] it performs one exchange, sending 0x52, 0x04, the value's
    high and low byte and their CRC8. *)
Theorem SetForcedRecalibrationValue_range {BusState : Type}
    (d : Device BusState) (w : World BusState) (value : Z) :
  0 <= value < 2 ^ 16 ->
  (value < 400 \/ 2000 < value ->
     SetForcedRecalibrationValue d value w
     = Returns (Some (ErrForcedRecalibration value), w)
     /\ Error (ErrForcedRecalibration value)
        = ("invalid forced recalibration value: " ++ fmt_d value
             ++ ", expected [400-2000]")%string)
  /\ (400 <= value <= 2000 ->
        exists hi lo crc,
          is_byte hi /\ is_byte lo /\ hi * 256 + lo = value
          /\ computeCRC8 [hi; lo] 2 = Returns crc
          /\ SetForcedRecalibrationValue d value w
             = Returns (sent d w [0x52; 0x04; hi; lo; crc])).
Proof.
  intros range. unfold SetForcedRecalibrationValue. split.
  - intros outside.
    assert ((value <? 400) || (value >? 2000) = true) as ->
        by (apply orb_true_iff; lia).
    split; reflexivity.
  - intros inside.
    assert ((value <? 400) || (value >? 2000) = false) as ->
        by (apply orb_false_iff; lia).
    apply (writeValue_frame d w CMD_FORCED_RECALIBRATION_VALUE value range).
Qed.

Lemma SetForcedRecalibrationValue_range_witness :
  SetForcedRecalibrationValue (New scripted) 399 (boot [(None, [])])
  = Returns (Some (ErrForcedRecalibration 399), boot [(None, [])])
  /\ SetForcedRecalibrationValue (New scripted) 2001 (boot [(None, [])])
     = Returns (Some (ErrForcedRecalibration 2001), boot [(None, [])])
  /\ (exists hi lo crc,
        is_byte hi /\ is_byte lo /\ hi * 256 + lo = 400
        /\ computeCRC8 [hi; lo] 2 = Returns crc
        /\ SetForcedRecalibrationValue (New scripted) 400 (boot [(None, [])])
           = Returns (sent (New scripted) (boot [(None, [])])
                        [0x52; 0x04; hi; lo; crc]))
  /\ (exists hi lo crc,
        is_byte hi /\ is_byte lo /\ hi * 256 + lo = 2000
        /\ computeCRC8 [hi; lo] 2 = Returns crc
        /\ SetForcedRecalibrationValue (New scripted) 2000 (boot [(None, [])])
           = Returns (sent (New scripted) (boot [(None, [])])
                        [0x52; 0x04; hi; lo; crc])).
Proof.
  repeat apply conj.
  - apply (SetForcedRecalibrationValue_range
             (New scripted) (boot [(None, [])]) 399); lia.
  - apply (SetForcedRecalibrationValue_range
             (New scripted) (boot [(None, [])]) 2001); lia.
  - apply (SetForcedRecalibrationValue_range
             (New scripted) (boot [(None, [])]) 400); lia.
  - apply (SetForcedRecalibrationValue_range
             (New scripted) (boot [(None, [])]) 2000); lia.
Defined.

(** X5. [SetTemperatureOffset] and [SetAltitudeCompensation] check
    nothing: for every [uint16] they perform one exchange, sending 0x54,
    0x03, respectively 0x51, 0x02, then the value's high and low byte
    and their CRC8. *)
Theorem unchecked_setters_send_every_value {BusState : Type}
    (d : Device BusState) (w : World BusState) (value : Z) :
  0 <= value < 2 ^ 16 ->
  exists hi lo crc,
    is_byte hi /\ is_byte lo /\ hi * 256 + lo = value
    /\ computeCRC8 [hi; lo] 2 = Returns crc
    /\ SetTemperatureOffset d value w
       = Returns (sent d w [0x54; 0x03; hi; lo; crc])
    /\ SetAltitudeCompensation d value w
       = Returns (sent d w [0x51; 0x02; hi; lo; crc]).
Proof.
  intros range.
  destruct (writeValue_frame d w CMD_TEMPERATURE_OFFSET value range)
    as (hi & lo & crc & high & low & whole & computed & offset).
  destruct (writeValue_frame d w CMD_ALTITUDE_COMPENSATION value range)
    as (hi' & lo' & crc' & high' & low' & whole' & computed' & altitude).
  unfold is_byte in *.
  assert (hi' = hi /\ lo' = lo) as [-> ->] by lia.
  assert (crc' = crc) as -> by congruence.
  exists hi, lo, crc. repeat split; try (assumption || lia).
Qed.

Lemma unchecked_setters_send_every_value_witness :
  exists hi lo crc,
    is_byte hi /\ is_byte lo /\ hi * 256 + lo = 65535
    /\ computeCRC8 [hi; lo] 2 = Returns crc
    /\ SetTemperatureOffset (New scripted) 65535 (boot [(None, [])])
       = Returns (sent (New scripted) (boot [(None, [])])
                    [0x54; 0x03; hi; lo; crc])
    /\ SetAltitudeCompensation (New scripted) 65535 (boot [(None, [])])
       = Returns (sent (New scripted) (boot [(None, [])])
                    [0x51; 0x02; hi; lo; crc]).
Proof.
  apply (unchecked_setters_send_every_value
           (New scripted) (boot [(None, [])]) 65535).
  lia.
Defined.

(** X6. The commands with a fixed payload each perform one exchange:
    [SetSelfCalibration] sends 0x53, 0x06 and then 0x00, 0x01, 0xB0 to
    enable or 0x00, 0x00, 0x81 to disable, [SoftReset] sends 0xD3, 0x04,
    0x00, 0x01, 0xB0 and [StopContinuousMeasurement] sends 0x01, 0x04,
    0x00, 0x01, 0xB0; in each the last byte is the CRC8 of the two
    before it. *)
Theorem fixed_payload_commands {BusState : Type}
    (d : Device BusState) (w : World BusState) :
  SetSelfCalibration d true w
  = Returns (sent d w [0x53; 0x06; 0x00; 0x01; 0xB0])
  /\ SetSelfCalibration d false w
     = Returns (sent d w [0x53; 0x06; 0x00; 0x00; 0x81])
  /\ SoftReset d w = Returns (sent d w [0xD3; 0x04; 0x00; 0x01; 0xB0])
  /\ StopContinuousMeasurement d w
     = Returns (sent d w [0x01; 0x04; 0x00; 0x01; 0xB0])
  /\ computeCRC8 [0x00; 0x01] 2 = Returns 0xB0
  /\ computeCRC8 [0x00; 0x00] 2 = Returns 0x81.
Proof.
  repeat split;
    try (unfold SetSelfCalibration, SoftReset, StopContinuousMeasurement;
         rewrite writeValue_sends by (vm_compute; split; congruence);
         reflexivity).
Qed.

(** ** More on reading *)

(** X7. [readResponse] sends the command's two bytes and reads nothing.
    When that exchange fails it returns the "failed to send data" error
    at once: it does not sleep, does not read, and leaves the buffer as
    it was. Otherwise it sleeps for [ClockStretching] and performs one
    more exchange that sends nothing and reads into the buffer; it
    returns the "failed to read data" error when that exchange fails and
    nil when it succeeds. The buffer keeps its length. *)
Theorem readResponse_steps {BusState : Type}
    (d : Device BusState) (w : World BusState) (command : Z)
    (response : list Z) :
  let address := uint16 (Address d) in
  let request := [uint8 (Z.shiftr command 8); uint8 (Z.land command 0xFF)] in
  (forall cause out s1,
      Tx (bus d) address request [] (bus_state w) = ((Some cause, out), s1) ->
      readResponse d command response w
      = Returns ((response, Some (ErrSend cause)),
                 {| bus_state := s1;
                    events := events w ++ [EvTx address request []] |}))
  /\ (forall out s1 answer out' s2,
        Tx (bus d) address request [] (bus_state w) = ((None, out), s1) ->
        Tx (bus d) address [] response s1 = ((answer, out'), s2) ->
        readResponse d command response w
        = Returns ((fill response out', option_map ErrRead answer),
                   {| bus_state := s2;
                      events := events w
                                ++ [EvTx address request [];
                                    EvSleep (ClockStretching d);
                                    EvTx address [] response] |})
        /\ List.length (fill response out') = List.length response).
Proof.
  cbv zeta. split.
  - intros cause out s1 send.
    unfold readResponse, bind, bus_Tx. rewrite send. reflexivity.
  - intros out s1 answer out' s2 send receive.
    split; [ | apply fill_length].
    unfold readResponse, bind, bus_Tx, Sleep. rewrite send.
    cbn [bus_state events]. rewrite receive.
    rewrite <- !app_assoc. destruct answer; reflexivity.
Qed.

Lemma readResponse_steps_witness :
  readResponse (New scripted) CMD_READ_VERSION (make_bytes 3)
    (boot [(Some "i2c: nack"%string, [])])
  = Returns ((make_bytes 3, Some (ErrSend "i2c: nack"%string)),
             {| bus_state := [];
                events := [EvTx 0x61 [0xD1; 0x00] []] |})
  /\ readResponse (New scripted) CMD_READ_VERSION (make_bytes 3)
       (boot [(None, []); (None, [1; 2; 0x17; 0xFF])])
     = Returns (([1; 2; 0x17], None), answered [0xD1; 0x00] 3).
Proof.
  split.
  - apply (proj1 (readResponse_steps (New scripted)
                    (boot [(Some "i2c: nack"%string, [])])
                    CMD_READ_VERSION (make_bytes 3))
             "i2c: nack"%string [] []).
    reflexivity.
  - apply (proj2 (readResponse_steps (New scripted)
                    (boot [(None, []); (None, [1; 2; 0x17; 0xFF])])
                    CMD_READ_VERSION (make_bytes 3))
             [] [(None, [1; 2; 0x17; 0xFF])] None [1; 2; 0x17; 0xFF] []);
      reflexivity.
Defined.

(** X8. [readAndCheckResponse] refuses a buffer that is not 3 bytes
    long: it returns its length error without any exchange on the bus
    and without touching the buffer. *)
Theorem readAndCheckResponse_wants_3_bytes {BusState : Type}
    (d : Device BusState) (w : World BusState) (command : Z)
    (response : list Z) :
  len response <> 3 ->
  readAndCheckResponse d command response w
  = Returns ((response, Some ErrResponseLength), w).
Proof.
  intros other. unfold readAndCheckResponse.
  destruct (Z.eqb_spec (len response) 3); [contradiction | reflexivity].
Qed.

Lemma readAndCheckResponse_wants_3_bytes_witness :
  readAndCheckResponse (New scripted) CMD_READ_MEASUREMENT (make_bytes 18)
    fixture_bus
  = Returns ((make_bytes 18, Some ErrResponseLength), fixture_bus).
Proof.
  apply (readAndCheckResponse_wants_3_bytes (New scripted) fixture_bus
           CMD_READ_MEASUREMENT (make_bytes 18)).
  unfold len. simpl. lia.
Defined.

(** ** More on the getters *)

(** [uint16(b0)<<8 | uint16(b1)]. *)
Lemma uint16_of_bytes (b0 b1 : Z) :
  is_byte b0 -> is_byte b1 ->
  Z.lor (uint16 (Z.shiftl (uint16 b0) 8)) (uint16 b1) = b0 * 256 + b1.
Proof.
  intros byte0 byte1.
  rewrite (uint16_byte b0), (uint16_byte b1) by assumption.
  unfold is_byte in *.
  rewrite Z.shiftl_mul_pow2 by lia. change (2 ^ 8) with 256.
  unfold uint16. rewrite Z.mod_small by lia.
  rewrite <- (Z.add_lor_land (b0 * 256) b1).
  assert (Z.land (b0 * 256) b1 = 0) as ->; [ | lia].
  apply Z.bits_inj'. intros n position.
  rewrite Z.land_spec, Z.bits_0.
  destruct (Z.ltb_spec n 8).
  - change 256 with (2 ^ 8). rewrite Z.mul_pow2_bits_low by lia. reflexivity.
  - rewrite (byte_high_bits b1 n) by (assumption || lia). apply andb_false_r.
Qed.

Section Decoded.

Context {BusState : Type}.
Variables (d : Device BusState) (w w' : World BusState) (b0 b1 c : Z).

Ltac read_verified verified :=
  unfold bind; rewrite verified;
  apply readAndCheckResponse_verified in verified
    as (_ & _ & x0 & x1 & x2 & [= -> -> ->] & byte0 & byte1 & _);
  change (index [x0; x1; x2] 0) with (Returns x0);
  change (index [x0; x1; x2] 1) with (Returns x1);
  unfold lift, ret.

Lemma GetMeasurementInterval_decoded :
  readAndCheckResponse d CMD_MEASUREMENT_INTERVAL (make_bytes 3) w
  = Returns (([b0; b1; c], None), w') ->
  GetMeasurementInterval d w = Returns ((b0 * 256 + b1, None), w').
Proof.
  intros verified. unfold GetMeasurementInterval. read_verified verified.
  rewrite uint16_of_bytes by assumption. reflexivity.
Qed.

Lemma GetForcedRecalibrationValue_decoded :
  readAndCheckResponse d CMD_FORCED_RECALIBRATION_VALUE (make_bytes 3) w
  = Returns (([b0; b1; c], None), w') ->
  GetForcedRecalibrationValue d w = Returns ((b0 * 256 + b1, None), w').
Proof.
  intros verified. unfold GetForcedRecalibrationValue. read_verified verified.
  rewrite uint16_of_bytes by assumption. reflexivity.
Qed.

Lemma GetTemperatureOffset_decoded :
  readAndCheckResponse d CMD_TEMPERATURE_OFFSET (make_bytes 3) w
  = Returns (([b0; b1; c], None), w') ->
  GetTemperatureOffset d w = Returns ((b0 * 256 + b1, None), w').
Proof.
  intros verified. unfold GetTemperatureOffset. read_verified verified.
  rewrite uint16_of_bytes by assumption. reflexivity.
Qed.

Lemma GetAltitudeCompensation_decoded :
  readAndCheckResponse d CMD_ALTITUDE_COMPENSATION (make_bytes 3) w
  = Returns (([b0; b1; c], None), w') ->
  GetAltitudeCompensation d w = Returns ((b0 * 256 + b1, None), w').
Proof.
  intros verified. unfold GetAltitudeCompensation. read_verified verified.
  rewrite uint16_of_bytes by assumption. reflexivity.
Qed.

Lemma GetSoftwareVersion_decoded :
  readAndCheckResponse d CMD_READ_VERSION (make_bytes 3) w
  = Returns (([b0; b1; c], None), w') ->
  GetSoftwareVersion d w
  = Returns (((fmt_d b0 ++ "." ++ fmt_d b1)%string, None), w').
Proof.
  intros verified. unfold GetSoftwareVersion. read_verified verified.
  reflexivity.
Qed.

Lemma HasDataReady_decoded :
  readAndCheckResponse d CMD_READ_DATA_READY (make_bytes 3) w
  = Returns (([b0; b1; c], None), w') ->
  HasDataReady d w = Returns ((b1 =? 0x01, None), w').
Proof.
  intros verified. unfold HasDataReady. read_verified verified.
  rewrite uint16_byte by assumption. reflexivity.
Qed.

Lemma GetSelfCalibration_decoded :
  readAndCheckResponse d CMD_SELF_CALIBRATION (make_bytes 3) w
  = Returns (([b0; b1; c], None), w') ->
  GetSelfCalibration d w = Returns ((b1 =? 0x01, None), w').
Proof.
  intros verified. unfold GetSelfCalibration. read_verified verified.
  rewrite uint16_byte by assumption. reflexivity.
Qed.

End Decoded.

(** X9. When the 3-byte response is read and verified, each of
    [GetMeasurementInterval], [GetForcedRecalibrationValue],
    [GetTemperatureOffset] and [GetAltitudeCompensation] returns without
    error the number whose high byte is byte 0 and whose low byte is
    byte 1, which is below 65536; byte 2 only serves the check. *)
Theorem numeric_getters_big_endian {BusState : Type}
    (d : Device BusState) (w w' : World BusState) (b0 b1 c : Z) :
  (readAndCheckResponse d CMD_MEASUREMENT_INTERVAL (make_bytes 3) w
   = Returns (([b0; b1; c], None), w') ->
   GetMeasurementInterval d w = Returns ((b0 * 256 + b1, None), w')
   /\ 0 <= b0 * 256 + b1 < 2 ^ 16)
  /\ (readAndCheckResponse d CMD_FORCED_RECALIBRATION_VALUE (make_bytes 3) w
      = Returns (([b0; b1; c], None), w') ->
      GetForcedRecalibrationValue d w = Returns ((b0 * 256 + b1, None), w')
      /\ 0 <= b0 * 256 + b1 < 2 ^ 16)
  /\ (readAndCheckResponse d CMD_TEMPERATURE_OFFSET (make_bytes 3) w
      = Returns (([b0; b1; c], None), w') ->
      GetTemperatureOffset d w = Returns ((b0 * 256 + b1, None), w')
      /\ 0 <= b0 * 256 + b1 < 2 ^ 16)
  /\ (readAndCheckResponse d CMD_ALTITUDE_COMPENSATION (make_bytes 3) w
      = Returns (([b0; b1; c], None), w') ->
      GetAltitudeCompensation d w = Returns ((b0 * 256 + b1, None), w')
      /\ 0 <= b0 * 256 + b1 < 2 ^ 16).
Proof.
  assert (forall command,
            readAndCheckResponse d command (make_bytes 3) w
            = Returns (([b0; b1; c], None), w') ->
            0 <= b0 * 256 + b1 < 2 ^ 16) as below.
  { intros command verified.
    apply readAndCheckResponse_verified in verified
      as (_ & _ & x0 & x1 & x2 & [= -> -> ->] & byte0 & byte1 & _).
    unfold is_byte in *. lia. }
  repeat split; try (eapply below; eassumption).
  - eapply GetMeasurementInterval_decoded. eassumption.
  - eapply GetForcedRecalibrationValue_decoded. eassumption.
  - eapply GetTemperatureOffset_decoded. eassumption.
  - eapply GetAltitudeCompensation_decoded. eassumption.
Qed.

Lemma numeric_getters_big_endian_witness :
  GetMeasurementInterval (New scripted)
    (boot [(None, []); (None, [0x07; 0x08; 0x96])])
  = Returns ((0x07 * 256 + 0x08, None), answered [0x46; 0x00] 3)
  /\ GetForcedRecalibrationValue (New scripted)
       (boot [(None, []); (None, [0x07; 0x08; 0x96])])
     = Returns ((0x07 * 256 + 0x08, None), answered [0x52; 0x04] 3)
  /\ GetTemperatureOffset (New scripted)
       (boot [(None, []); (None, [0x07; 0x08; 0x96])])
     = Returns ((0x07 * 256 + 0x08, None), answered [0x54; 0x03] 3)
  /\ GetAltitudeCompensation (New scripted)
       (boot [(None, []); (None, [0x07; 0x08; 0x96])])
     = Returns ((0x07 * 256 + 0x08, None), answered [0x51; 0x02] 3).
Proof.
  repeat apply conj.
  - apply (proj1 (numeric_getters_big_endian (New scripted)
                    (boot [(None, []); (None, [0x07; 0x08; 0x96])])
                    (answered [0x46; 0x00] 3) 0x07 0x08 0x96)).
    vm_compute. reflexivity.
  - apply (proj1 (proj2 (numeric_getters_big_endian (New scripted)
                    (boot [(None, []); (None, [0x07; 0x08; 0x96])])
                    (answered [0x52; 0x04] 3) 0x07 0x08 0x96))).
    vm_compute. reflexivity.
  - apply (proj1 (proj2 (proj2 (numeric_getters_big_endian (New scripted)
                    (boot [(None, []); (None, [0x07; 0x08; 0x96])])
                    (answered [0x54; 0x03] 3) 0x07 0x08 0x96)))).
    vm_compute. reflexivity.
  - apply (proj2 (proj2 (proj2 (numeric_getters_big_endian (New scripted)
                    (boot [(None, []); (None, [0x07; 0x08; 0x96])])
                    (answered [0x51; 0x02] 3) 0x07 0x08 0x96)))).
    vm_compute. reflexivity.
Defined.

(** X10. When the 3-byte response is read and verified,
    [GetSoftwareVersion] returns without error byte 0 in decimal, a dot,
    and byte 1 in decimal; for the bytes 1 and 2 this is "1.2". *)
Theorem GetSoftwareVersion_major_minor {BusState : Type}
    (d : Device BusState) (w w' : World BusState) (b0 b1 c : Z) :
  readAndCheckResponse d CMD_READ_VERSION (make_bytes 3) w
  = Returns (([b0; b1; c], None), w') ->
  GetSoftwareVersion d w
  = Returns (((fmt_d b0 ++ "." ++ fmt_d b1)%string, None), w')
  /\ (b0 = 1 -> b1 = 2 ->
      GetSoftwareVersion d w = Returns (("1.2"%string, None), w')).
Proof.
  intros verified.
  pose proof (GetSoftwareVersion_decoded d w w' b0 b1 c verified) as run.
  split; [exact run | ].
  intros -> ->. exact run.
Qed.

Lemma GetSoftwareVersion_major_minor_witness :
  GetSoftwareVersion (New scripted)
    (boot [(None, []); (None, [3; 66; 0xF3])])
  = Returns (("3.66"%string, None), answered [0xD1; 0x00] 3).
Proof.
  apply (GetSoftwareVersion_major_minor (New scripted)
           (boot [(None, []); (None, [3; 66; 0xF3])])
           (answered [0xD1; 0x00] 3) 3 66 0xF3).
  vm_compute. reflexivity.
Defined.

(** X11. When the 3-byte response is read and verified, [HasDataReady]
    returns without error the boolean "byte 1 equals 0x01", whatever
    byte 0 is. *)
Theorem HasDataReady_byte_1 {BusState : Type}
    (d : Device BusState) (w w' : World BusState) (b0 b1 c : Z) :
  readAndCheckResponse d CMD_READ_DATA_READY (make_bytes 3) w
  = Returns (([b0; b1; c], None), w') ->
  HasDataReady d w = Returns ((b1 =? 0x01, None), w').
Proof. intros verified. eapply HasDataReady_decoded. eassumption. Qed.

Lemma HasDataReady_byte_1_witness :
  HasDataReady (New scripted) (boot [(None, []); (None, [0xAB; 0x01; 0x55])])
  = Returns ((true, None), answered [0x02; 0x02] 3).
Proof.
  apply (HasDataReady_byte_1 (New scripted)
           (boot [(None, []); (None, [0xAB; 0x01; 0x55])])
           (answered [0x02; 0x02] 3) 0xAB 0x01 0x55).
  vm_compute. reflexivity.
Defined.

(** ** Written values read back *)

Section RoundTrip.

Context {BusState : Type}.
Variable d : Device BusState.

Lemma readAndCheckResponse_of_read (command : Z) (w w' : World BusState)
    (frame : list Z) :
  readResponse d command (make_bytes 3) w = Returns ((frame, None), w') ->
  checkCRC8 frame = Returns None ->
  readAndCheckResponse d command (make_bytes 3) w
  = Returns ((frame, None), w').
Proof.
  intros read verified. unfold readAndCheckResponse.
  change (negb (len (make_bytes 3) =? 3)) with false. cbv iota.
  unfold bind. rewrite read. unfold lift. rewrite verified. reflexivity.
Qed.

(** The three bytes [writeValue] sends after the command, read back. *)
Lemma payload_reads_back (value : Z) :
  0 <= value < 2 ^ 16 ->
  let payload :=
    [value / 256; value mod 256;
     Reference.crc8 [value / 256; value mod 256] 2] in
  checkCRC8 payload = Returns None
  /\ (forall command w w',
        readResponse d command (make_bytes 3) w
        = Returns ((payload, None), w') ->
        readAndCheckResponse d command (make_bytes 3) w
        = Returns ((payload, None), w')).
Proof.
  intros range payload.
  assert (checkCRC8 payload = Returns None) as verified.
  { unfold payload. rewrite checkCRC8_chunk by apply reference_crc8_range.
    rewrite Z.eqb_refl. reflexivity. }
  split; [exact verified | ].
  intros command w w' read.
  apply readAndCheckResponse_of_read; assumption.
Qed.

End RoundTrip.

(** X12. What a numeric setter writes, the matching getter reads back:
    for every [uint16] value (within the setter's range) the three bytes
    the setter sends after its command pass [checkCRC8], and when the
    response read for the same command is these three bytes the getter
    returns the value without error. *)
Theorem numeric_setters_read_back {BusState : Type}
    (d : Device BusState) (w0 : World BusState) (value : Z) :
  0 <= value < 2 ^ 16 ->
  exists payload,
    checkCRC8 payload = Returns None
    /\ (2 <= value <= 1800 ->
        SetMeasurementInterval d value w0
        = Returns (sent d w0 (0x46 :: 0x00 :: payload)))
    /\ (400 <= value <= 2000 ->
        SetForcedRecalibrationValue d value w0
        = Returns (sent d w0 (0x52 :: 0x04 :: payload)))
    /\ SetTemperatureOffset d value w0
       = Returns (sent d w0 (0x54 :: 0x03 :: payload))
    /\ SetAltitudeCompensation d value w0
       = Returns (sent d w0 (0x51 :: 0x02 :: payload))
    /\ forall w w',
         (readResponse d CMD_MEASUREMENT_INTERVAL (make_bytes 3) w
          = Returns ((payload, None), w') ->
          GetMeasurementInterval d w = Returns ((value, None), w'))
         /\ (readResponse d CMD_FORCED_RECALIBRATION_VALUE (make_bytes 3) w
             = Returns ((payload, None), w') ->
             GetForcedRecalibrationValue d w = Returns ((value, None), w'))
         /\ (readResponse d CMD_TEMPERATURE_OFFSET (make_bytes 3) w
             = Returns ((payload, None), w') ->
             GetTemperatureOffset d w = Returns ((value, None), w'))
         /\ (readResponse d CMD_ALTITUDE_COMPENSATION (make_bytes 3) w
             = Returns ((payload, None), w') ->
             GetAltitudeCompensation d w = Returns ((value, None), w')).
Proof.
  intros range.
  destruct (payload_reads_back d value range) as [verified back].
  destruct (uint16_halves value range) as (_ & _ & whole).
  eexists. split; [exact verified | ].
  split; [ | split; [ | split; [ | split]]].
  - intros inside. unfold SetMeasurementInterval.
    assert ((value <? 2) || (value >? 1800) = false) as ->
        by (apply orb_false_iff; lia).
    apply writeValue_sends. assumption.
  - intros inside. unfold SetForcedRecalibrationValue.
    assert ((value <? 400) || (value >? 2000) = false) as ->
        by (apply orb_false_iff; lia).
    apply writeValue_sends. assumption.
  - apply (writeValue_sends d w0 CMD_TEMPERATURE_OFFSET value range).
  - apply (writeValue_sends d w0 CMD_ALTITUDE_COMPENSATION value range).
  - intros w w'. repeat split; intros read; apply back in read;
      rewrite <- whole.
    + eapply GetMeasurementInterval_decoded. eassumption.
    + eapply GetForcedRecalibrationValue_decoded. eassumption.
    + eapply GetTemperatureOffset_decoded. eassumption.
    + eapply GetAltitudeCompensation_decoded. eassumption.
Qed.

Lemma numeric_setters_read_back_witness :
  exists payload,
    checkCRC8 payload = Returns None
    /\ (2 <= 1800 <= 1800 ->
        SetMeasurementInterval (New scripted) 1800 (boot [(None, [])])
        = Returns (sent (New scripted) (boot [(None, [])])
                     (0x46 :: 0x00 :: payload)))
    /\ (400 <= 1800 <= 2000 ->
        SetForcedRecalibrationValue (New scripted) 1800 (boot [(None, [])])
        = Returns (sent (New scripted) (boot [(None, [])])
                     (0x52 :: 0x04 :: payload)))
    /\ SetTemperatureOffset (New scripted) 1800 (boot [(None, [])])
       = Returns (sent (New scripted) (boot [(None, [])])
                    (0x54 :: 0x03 :: payload))
    /\ SetAltitudeCompensation (New scripted) 1800 (boot [(None, [])])
       = Returns (sent (New scripted) (boot [(None, [])])
                    (0x51 :: 0x02 :: payload))
    /\ forall w w',
         (readResponse (New scripted) CMD_MEASUREMENT_INTERVAL
            (make_bytes 3) w
          = Returns ((payload, None), w') ->
          GetMeasurementInterval (New scripted) w
          = Returns ((1800, None), w'))
         /\ (readResponse (New scripted) CMD_FORCED_RECALIBRATION_VALUE
               (make_bytes 3) w
             = Returns ((payload, None), w') ->
             GetForcedRecalibrationValue (New scripted) w
             = Returns ((1800, None), w'))
         /\ (readResponse (New scripted) CMD_TEMPERATURE_OFFSET
               (make_bytes 3) w
             = Returns ((payload, None), w') ->
             GetTemperatureOffset (New scripted) w
             = Returns ((1800, None), w'))
         /\ (readResponse (New scripted) CMD_ALTITUDE_COMPENSATION
               (make_bytes 3) w
             = Returns ((payload, None), w') ->
             GetAltitudeCompensation (New scripted) w
             = Returns ((1800, None), w')).
Proof.
  apply (numeric_setters_read_back (New scripted) (boot [(None, [])]) 1800).
  lia.
Defined.

(** X13. What [SetSelfCalibration] writes, [GetSelfCalibration] reads
    back: the three bytes sent after the command pass [checkCRC8], and
    when the response read for the command is these three bytes the
    getter returns the flag that was set, without error. *)
Theorem self_calibration_reads_back {BusState : Type}
    (d : Device BusState) (w0 : World BusState) (enabled : bool) :
  exists payload,
    checkCRC8 payload = Returns None
    /\ SetSelfCalibration d enabled w0
       = Returns (sent d w0 (0x53 :: 0x06 :: payload))
    /\ forall w w',
         readResponse d CMD_SELF_CALIBRATION (make_bytes 3) w
         = Returns ((payload, None), w') ->
         GetSelfCalibration d w = Returns ((enabled, None), w').
Proof.
  destruct enabled.
  - exists [0x00; 0x01; 0xB0]. split; [reflexivity | ]. split.
    + unfold SetSelfCalibration.
      rewrite writeValue_sends by (vm_compute; split; congruence).
      reflexivity.
    + intros w w' read.
      apply readAndCheckResponse_of_read in read; [ | reflexivity].
      apply (GetSelfCalibration_decoded d w w' 0x00 0x01 0xB0 read).
  - exists [0x00; 0x00; 0x81]. split; [reflexivity | ]. split.
    + unfold SetSelfCalibration.
      rewrite writeValue_sends by (vm_compute; split; congruence).
      reflexivity.
    + intros w w' read.
      apply readAndCheckResponse_of_read in read; [ | reflexivity].
      apply (GetSelfCalibration_decoded d w w' 0x00 0x00 0x81 read).
Qed.

Lemma self_calibration_reads_back_witness :
  GetSelfCalibration (New scripted)
    (boot [(None, []); (None, [0x00; 0x01; 0xB0])])
  = Returns ((true, None), answered [0x53; 0x06] 3).
Proof.
  destruct (self_calibration_reads_back (New scripted) (boot [(None, [])]) true)
    as (payload & _ & set & back).
  vm_compute in set. injection set as <-.
  apply back. vm_compute. reflexivity.
Defined.

(** ** What the getters do on the bus *)

Section Footprint.

Context {BusState : Type}.
Variables (d : Device BusState) (w : World BusState).

Lemma readResponse_footprint (command : Z) (n : nat) :
  exists frame err w',
    readResponse d command (make_bytes n) w = Returns ((frame, err), w')
    /\ List.length frame = n
    /\ Forall is_byte frame
    /\ read_footprint d
         [uint8 (Z.shiftr command 8); uint8 (Z.land command 0xFF)] n w w' err
    /\ (err = None ->
        events w'
        = events w
          ++ [EvTx (uint16 (Address d))
                [uint8 (Z.shiftr command 8); uint8 (Z.land command 0xFF)] [];
              EvSleep (ClockStretching d);
              EvTx (uint16 (Address d)) [] (make_bytes n)]).
Proof.
  unfold read_footprint, readResponse, bind, ret, bus_Tx, Sleep.
  destruct (Tx (bus d) _ _ [] (bus_state w)) as [[[cause | ] out] s1];
    cbn [bus_state events].
  - do 3 eexists. split; [reflexivity | ].
    cbn [events]. repeat split.
    + unfold make_bytes. apply repeat_length.
    + apply make_bytes_bytes.
    + left. eauto.
    + discriminate.
  - destruct (Tx (bus d) _ [] (make_bytes n) s1) as [[answer out'] s2].
    assert (List.length (fill (make_bytes n) out') = n) as size
        by (rewrite fill_length; unfold make_bytes; apply repeat_length).
    pose proof (fill_bytes (make_bytes n) out' (make_bytes_bytes n)) as bytes.
    destruct answer as [cause | ]; do 3 eexists;
      (split; [reflexivity | ]); cbn [events]; rewrite <- !app_assoc;
      repeat split; auto.
Qed.

Lemma readAndCheckResponse_footprint (command : Z) :
  exists b0 b1 c err w',
    readAndCheckResponse d command (make_bytes 3) w
    = Returns (([b0; b1; c], err), w')
    /\ read_footprint d
         [uint8 (Z.shiftr command 8); uint8 (Z.land command 0xFF)] 3 w w' err.
Proof.
  unfold readAndCheckResponse.
  change (negb (len (make_bytes 3) =? 3)) with false. cbv iota. unfold bind.
  destruct (readResponse_footprint command 3)
    as (frame & err & w' & -> & size & _ & footprint & succeeded).
  destruct frame as [ | b0 [ | b1 [ | c [ | ? ?]]]]; try discriminate size.
  destruct err as [e | ]; [unfold ret; eauto 10 | ].
  destruct (checkCRC8_returns [b0; b1; c]) as [r check];
    [unfold len; simpl; lia | ].
  unfold lift, ret. rewrite check.
  do 5 eexists. split; [reflexivity | ].
  right. apply succeeded. reflexivity.
Qed.

Ltac getter_footprint command :=
  unfold bind;
  destruct (readAndCheckResponse_footprint command)
    as (b0 & b1 & c & [e | ] & w' & -> & footprint);
  [ unfold ret; eauto
  | change (index [b0; b1; c] 0) with (Returns b0);
    change (index [b0; b1; c] 1) with (Returns b1);
    unfold lift, ret; eauto ].

Lemma GetSoftwareVersion_footprint :
  exists version err w',
    GetSoftwareVersion d w = Returns ((version, err), w')
    /\ read_footprint d [0xD1; 0x00] 3 w w' err.
Proof. unfold GetSoftwareVersion. getter_footprint CMD_READ_VERSION. Qed.

Lemma GetMeasurementInterval_footprint :
  exists interval err w',
    GetMeasurementInterval d w = Returns ((interval, err), w')
    /\ read_footprint d [0x46; 0x00] 3 w w' err.
Proof.
  unfold GetMeasurementInterval. getter_footprint CMD_MEASUREMENT_INTERVAL.
Qed.

Lemma GetSelfCalibration_footprint :
  exists enabled err w',
    GetSelfCalibration d w = Returns ((enabled, err), w')
    /\ read_footprint d [0x53; 0x06] 3 w w' err.
Proof. unfold GetSelfCalibration. getter_footprint CMD_SELF_CALIBRATION. Qed.

Lemma GetForcedRecalibrationValue_footprint :
  exists value err w',
    GetForcedRecalibrationValue d w = Returns ((value, err), w')
    /\ read_footprint d [0x52; 0x04] 3 w w' err.
Proof.
  unfold GetForcedRecalibrationValue.
  getter_footprint CMD_FORCED_RECALIBRATION_VALUE.
Qed.

Lemma GetTemperatureOffset_footprint :
  exists offset err w',
    GetTemperatureOffset d w = Returns ((offset, err), w')
    /\ read_footprint d [0x54; 0x03] 3 w w' err.
Proof. unfold GetTemperatureOffset. getter_footprint CMD_TEMPERATURE_OFFSET. Qed.

Lemma GetAltitudeCompensation_footprint :
  exists altitude err w',
    GetAltitudeCompensation d w = Returns ((altitude, err), w')
    /\ read_footprint d [0x51; 0x02] 3 w w' err.
Proof.
  unfold GetAltitudeCompensation. getter_footprint CMD_ALTITUDE_COMPENSATION.
Qed.

Lemma HasDataReady_footprint :
  exists isReady err w',
    HasDataReady d w = Returns ((isReady, err), w')
    /\ read_footprint d [0x02; 0x02] 3 w w' err.
Proof. unfold HasDataReady. getter_footprint CMD_READ_DATA_READY. Qed.

Lemma ReadMeasurement_footprint :
  exists measurement err w',
    ReadMeasurement d w = Returns ((measurement, err), w')
    /\ read_footprint d [0x03; 0x00] 18 w w' err.
Proof.
  destruct (readResponse_footprint CMD_READ_MEASUREMENT 18)
    as (frame & [e | ] & w' & read & size & bytes & footprint & succeeded).
  - unfold ReadMeasurement, bind. rewrite read. unfold ret. eauto 10.
  - rewrite (ReadMeasurement_decode d w w' frame read).
    destruct (eighteen_bytes frame size bytes)
      as (b0 & b1 & c0 & b2 & b3 & c1 & b4 & b5 & c2 & b6 & b7 & c3
          & b8 & b9 & c4 & b10 & b11 & c5 & -> & bytes').
    rewrite decode_measurement_frame. bytes_of bytes'.
    rewrite !checkCRC8_chunk by assumption.
    assert (forall err, read_footprint d [0x03; 0x00] 18 w w' err) as any
        by (intros err; right; apply succeeded; reflexivity).
    repeat match goal with
      | |- context [negb ?test] => destruct test; cbn [negb obind]
      end; eauto 10.
Qed.

End Footprint.

(** X14. No getter panics, whatever the bus answers: each returns, and
    between call and return it has either sent its two command bytes in
    an exchange that failed (and then returns the "failed to send data"
    error), or sent them, slept for [ClockStretching] and read its 3
    bytes, 18 for [ReadMeasurement], in one more exchange. It does
    nothing else on the bus. *)
Theorem getters_return_after_at_most_two_exchanges {BusState : Type}
    (d : Device BusState) (w : World BusState) :
  (exists version err w',
      GetSoftwareVersion d w = Returns ((version, err), w')
      /\ read_footprint d [0xD1; 0x00] 3 w w' err)
  /\ (exists interval err w',
        GetMeasurementInterval d w = Returns ((interval, err), w')
        /\ read_footprint d [0x46; 0x00] 3 w w' err)
  /\ (exists enabled err w',
        GetSelfCalibration d w = Returns ((enabled, err), w')
        /\ read_footprint d [0x53; 0x06] 3 w w' err)
  /\ (exists value err w',
        GetForcedRecalibrationValue d w = Returns ((value, err), w')
        /\ read_footprint d [0x52; 0x04] 3 w w' err)
  /\ (exists offset err w',
        GetTemperatureOffset d w = Returns ((offset, err), w')
        /\ read_footprint d [0x54; 0x03] 3 w w' err)
  /\ (exists altitude err w',
        GetAltitudeCompensation d w = Returns ((altitude, err), w')
        /\ read_footprint d [0x51; 0x02] 3 w w' err)
  /\ (exists isReady err w',
        HasDataReady d w = Returns ((isReady, err), w')
        /\ read_footprint d [0x02; 0x02] 3 w w' err)
  /\ (exists measurement err w',
        ReadMeasurement d w = Returns ((measurement, err), w')
        /\ read_footprint d [0x03; 0x00] 18 w w' err).
Proof.
  repeat apply conj.
  - apply GetSoftwareVersion_footprint.
  - apply GetMeasurementInterval_footprint.
  - apply GetSelfCalibration_footprint.
  - apply GetForcedRecalibrationValue_footprint.
  - apply GetTemperatureOffset_footprint.
  - apply GetAltitudeCompensation_footprint.
  - apply HasDataReady_footprint.
  - apply ReadMeasurement_footprint.
Qed.

(** ** A changed byte in a measurement *)

Lemma chunk_changed_0 (a a' b c : Z) :
  checkCRC8 [a; b; c] = Returns None -> a <> a' ->
  is_byte a -> is_byte a' -> is_byte b -> is_byte c ->
  checkCRC8 [a'; b; c] <> Returns None.
Proof.
  intros verified differs byte_a byte_a' byte_b byte_c.
  rewrite checkCRC8_chunk in * by assumption.
  pose proof (reference_crc8_single_byte [] [b] a a') as changed.
  cbn [app List.length] in changed.
  destruct (Z.eqb_spec (Reference.crc8 [a; b] 2) c); [ | discriminate].
  destruct (Z.eqb_spec (Reference.crc8 [a'; b] 2) c); [ | discriminate].
  contradiction changed; auto. congruence.
Qed.

Lemma chunk_changed_1 (a b b' c : Z) :
  checkCRC8 [a; b; c] = Returns None -> b <> b' ->
  is_byte a -> is_byte b -> is_byte b' -> is_byte c ->
  checkCRC8 [a; b'; c] <> Returns None.
Proof.
  intros verified differs byte_a byte_b byte_b' byte_c.
  rewrite checkCRC8_chunk in * by assumption.
  pose proof (reference_crc8_single_byte [a] [] b b') as changed.
  cbn [app List.length] in changed.
  destruct (Z.eqb_spec (Reference.crc8 [a; b] 2) c); [ | discriminate].
  destruct (Z.eqb_spec (Reference.crc8 [a; b'] 2) c); [ | discriminate].
  contradiction changed; auto. congruence.
Qed.

Lemma chunk_changed_2 (a b c c' : Z) :
  checkCRC8 [a; b; c] = Returns None -> c <> c' ->
  is_byte a -> is_byte b -> is_byte c -> is_byte c' ->
  checkCRC8 [a; b; c'] <> Returns None.
Proof.
  intros verified differs byte_a byte_b byte_c byte_c'.
  rewrite checkCRC8_chunk in * by assumption.
  destruct (Z.eqb_spec (Reference.crc8 [a; b] 2) c); [ | discriminate].
  destruct (Z.eqb_spec (Reference.crc8 [a; b] 2) c'); [ | discriminate].
  congruence.
Qed.

Lemma ReadMeasurement_bad_chunk {BusState : Type}
    (d : Device BusState) (w w' : World BusState) (frame : list Z) (k : nat) :
  readResponse d CMD_READ_MEASUREMENT (make_bytes 18) w
  = Returns ((frame, None), w') ->
  (k < 6)%nat ->
  checkCRC8 (chunk frame k) <> Returns None ->
  exists expectedCRC crc,
    crc <> expectedCRC
    /\ ReadMeasurement d w
       = Returns ((Measurement_zero, Some (ErrCRC expectedCRC crc)), w').
Proof.
  intros read chunk_k bad.
  destruct (first_bad_chunk frame (S k))
    as [verified | (k1 & chunk_k1 & verified & bad1)].
  { contradiction bad. apply verified. lia. }
  destruct (ReadMeasurement_first_bad_chunk d w w' frame read k1
              ltac:(lia) verified bad1)
    as (expectedCRC & crc & _ & _ & differs & run).
  eauto.
Qed.

(** Makes a list of known length explicit. *)
Ltac explicit_list l size :=
  destruct l as [ | ? l]; cbn [List.length] in size;
  [ try (exfalso; lia) | first [ exfalso; lia | explicit_list l size ] ].

(** Shows that a chunk with one byte changed fails its check, from the
    check of the chunk it was. *)
Ltac changed_chunk :=
  match goal with
  | V : checkCRC8 [?a; ?b; ?c] = Returns None
    |- checkCRC8 [?a'; ?b; ?c] <> Returns None =>
      apply (chunk_changed_0 a a' b c V); assumption
  | V : checkCRC8 [?a; ?b; ?c] = Returns None
    |- checkCRC8 [?a; ?b'; ?c] <> Returns None =>
      apply (chunk_changed_1 a b b' c V); assumption
  | V : checkCRC8 [?a; ?b; ?c] = Returns None
    |- checkCRC8 [?a; ?b; ?c'] <> Returns None =>
      apply (chunk_changed_2 a b c c' V); assumption
  end.

(** X15. A changed byte spoils the whole measurement: when the 18 bytes
    read differ in exactly one byte, data or checksum, from a frame
    whose six chunks all pass [checkCRC8], [ReadMeasurement] returns the
    zero [Measurement] with a checksum error. *)
Theorem ReadMeasurement_detects_changed_byte {BusState : Type}
    (d : Device BusState) (w w' : World BusState)
    (pre post : list Z) (b b' : Z) :
  readResponse d CMD_READ_MEASUREMENT (make_bytes 18) w
  = Returns ((pre ++ b' :: post, None), w') ->
  is_byte b -> b <> b' ->
  (forall k, (k < 6)%nat ->
     checkCRC8 (chunk (pre ++ b :: post) k) = Returns None) ->
  exists expectedCRC crc,
    crc <> expectedCRC
    /\ ReadMeasurement d w
       = Returns ((Measurement_zero, Some (ErrCRC expectedCRC crc)), w').
Proof.
  intros read byte_b differs verified.
  destruct (readResponse_buffer _ _ _ _ _ _ _ read) as [size bytes].
  specialize (bytes (make_bytes_bytes 18)).
  rewrite length_app in size. cbn [List.length make_bytes repeat] in size.
  explicit_list pre size; explicit_list post size;
    cbn [app] in *; bytes_of bytes.
  all: pose proof (verified 0%nat ltac:(lia)) as v0;
    pose proof (verified 1%nat ltac:(lia)) as v1;
    pose proof (verified 2%nat ltac:(lia)) as v2;
    pose proof (verified 3%nat ltac:(lia)) as v3;
    pose proof (verified 4%nat ltac:(lia)) as v4;
    pose proof (verified 5%nat ltac:(lia)) as v5;
    clear verified;
    cbn [chunk Nat.mul Nat.add skipn firstn] in v0, v1, v2, v3, v4, v5.
  all: first
    [ apply (ReadMeasurement_bad_chunk d w w' _ 0%nat read); [lia | ];
      cbn [chunk Nat.mul Nat.add skipn firstn]; solve [changed_chunk]
    | apply (ReadMeasurement_bad_chunk d w w' _ 1%nat read); [lia | ];
      cbn [chunk Nat.mul Nat.add skipn firstn]; solve [changed_chunk]
    | apply (ReadMeasurement_bad_chunk d w w' _ 2%nat read); [lia | ];
      cbn [chunk Nat.mul Nat.add skipn firstn]; solve [changed_chunk]
    | apply (ReadMeasurement_bad_chunk d w w' _ 3%nat read); [lia | ];
      cbn [chunk Nat.mul Nat.add skipn firstn]; solve [changed_chunk]
    | apply (ReadMeasurement_bad_chunk d w w' _ 4%nat read); [lia | ];
      cbn [chunk Nat.mul Nat.add skipn firstn]; solve [changed_chunk]
    | apply (ReadMeasurement_bad_chunk d w w' _ 5%nat read); [lia | ];
      cbn [chunk Nat.mul Nat.add skipn firstn]; solve [changed_chunk] ].
Qed.

Lemma ReadMeasurement_detects_changed_byte_witness :
  exists expectedCRC crc,
    crc <> expectedCRC
    /\ ReadMeasurement (New scripted)
         (boot [(None, []);
                (None, [0x43] ++ 0xC9 :: [0xDB; 0x00; 0x00; 0x81;
                                          0x41; 0xC8; 0x02; 0x00; 0x00; 0x81;
                                          0x42; 0x48; 0x55; 0x00; 0x00; 0x81])])
       = Returns ((Measurement_zero, Some (ErrCRC expectedCRC crc)),
                  answered [0x03; 0x00] 18).
Proof.
  apply (ReadMeasurement_detects_changed_byte (New scripted) _ _
           [0x43] [0xDB; 0x00; 0x00; 0x81;
                   0x41; 0xC8; 0x02; 0x00; 0x00; 0x81;
                   0x42; 0x48; 0x55; 0x00; 0x00; 0x81] 0xC8 0xC9).
  - vm_compute. reflexivity.
  - unfold is_byte. lia.
  - lia.
  - intros k chunk_k.
    destruct k as [ | [ | [ | [ | [ | [ | k]]]]]]; [ .. | lia];
      vm_compute; reflexivity.
Defined.

(** ** Errors are passed on *)

Section PassedOn.

Context {BusState : Type}.
Variables (d : Device BusState) (w w' : World BusState).
Variables (frame : list Z) (err : option error) (e : error).

Lemma readAndCheckResponse_failed (command : Z) :
  readResponse d command (make_bytes 3) w = Returns ((frame, err), w') ->
  read_failed frame err e ->
  readAndCheckResponse d command (make_bytes 3) w
  = Returns ((frame, Some e), w').
Proof.
  intros read failed. unfold readAndCheckResponse.
  change (negb (len (make_bytes 3) =? 3)) with false. cbv iota.
  unfold bind. rewrite read.
  destruct failed as [-> | [-> check]]; [reflexivity | ].
  unfold lift. rewrite check. reflexivity.
Qed.

End PassedOn.

(** X16. A getter passes on the error of its read, and of the check,
    unchanged and without retrying: when the exchange for its command
    fails, or succeeds with three bytes that fail [checkCRC8], the getter
    returns that error with the zero value, whatever the bytes hold;
    [ReadMeasurement] does so when its exchange fails. *)
Theorem getters_pass_errors_on {BusState : Type}
    (d : Device BusState) (w w' : World BusState)
    (frame : list Z) (err : option error) (e : error) :
  read_failed frame err e ->
  (readResponse d CMD_READ_VERSION (make_bytes 3) w
   = Returns ((frame, err), w') ->
   GetSoftwareVersion d w = Returns ((EmptyString, Some e), w'))
  /\ (readResponse d CMD_MEASUREMENT_INTERVAL (make_bytes 3) w
      = Returns ((frame, err), w') ->
      GetMeasurementInterval d w = Returns ((0, Some e), w'))
  /\ (readResponse d CMD_SELF_CALIBRATION (make_bytes 3) w
      = Returns ((frame, err), w') ->
      GetSelfCalibration d w = Returns ((false, Some e), w'))
  /\ (readResponse d CMD_FORCED_RECALIBRATION_VALUE (make_bytes 3) w
      = Returns ((frame, err), w') ->
      GetForcedRecalibrationValue d w = Returns ((0, Some e), w'))
  /\ (readResponse d CMD_TEMPERATURE_OFFSET (make_bytes 3) w
      = Returns ((frame, err), w') ->
      GetTemperatureOffset d w = Returns ((0, Some e), w'))
  /\ (readResponse d CMD_ALTITUDE_COMPENSATION (make_bytes 3) w
      = Returns ((frame, err), w') ->
      GetAltitudeCompensation d w = Returns ((0, Some e), w'))
  /\ (readResponse d CMD_READ_DATA_READY (make_bytes 3) w
      = Returns ((frame, err), w') ->
      HasDataReady d w = Returns ((false, Some e), w'))
  /\ (readResponse d CMD_READ_MEASUREMENT (make_bytes 18) w
      = Returns ((frame, Some e), w') ->
      ReadMeasurement d w = Returns ((Measurement_zero, Some e), w')).
Proof.
  intros failed.
  repeat apply conj; intros read;
    try (pose proof (readAndCheckResponse_failed d w w' frame err e _
                       read failed) as refused).
  - unfold GetSoftwareVersion, bind. rewrite refused. reflexivity.
  - unfold GetMeasurementInterval, bind. rewrite refused. reflexivity.
  - unfold GetSelfCalibration, bind. rewrite refused. reflexivity.
  - unfold GetForcedRecalibrationValue, bind. rewrite refused. reflexivity.
  - unfold GetTemperatureOffset, bind. rewrite refused. reflexivity.
  - unfold GetAltitudeCompensation, bind. rewrite refused. reflexivity.
  - unfold HasDataReady, bind. rewrite refused. reflexivity.
  - unfold ReadMeasurement, bind. rewrite read. reflexivity.
Qed.

Lemma getters_pass_errors_on_witness :
  HasDataReady (New scripted) (boot [(None, []); (None, [0x00; 0x01; 0x00])])
  = Returns ((false, Some (ErrCRC 0x00 0xB0)), answered [0x02; 0x02] 3)
  /\ GetMeasurementInterval (New scripted)
       (boot [(None, []); (Some "i2c: nack"%string, [0x00; 0x02])])
     = Returns ((0, Some (ErrRead "i2c: nack"%string)),
                answered [0x46; 0x00] 3).
Proof.
  split.
  - apply (proj1 (proj2 (proj2 (proj2 (proj2 (proj2 (proj2
             (getters_pass_errors_on (New scripted)
                (boot [(None, []); (None, [0x00; 0x01; 0x00])])
                (answered [0x02; 0x02] 3) [0x00; 0x01; 0x00] None
                (ErrCRC 0x00 0xB0)
                (or_intror (conj eq_refl eq_refl)))))))))).
    vm_compute. reflexivity.
  - apply (proj1 (proj2
             (getters_pass_errors_on (New scripted)
                (boot [(None, []); (Some "i2c: nack"%string, [0x00; 0x02])])
                (answered [0x46; 0x00] 3) [0x00; 0x02; 0x00]
                (Some (ErrRead "i2c: nack"%string))
                (ErrRead "i2c: nack"%string)
                (or_introl eq_refl)))).
    vm_compute. reflexivity.
Defined.
